(** * NBA draft career paths: the dataset builder of [scripts/dataset_creation.py]

    A shallow embedding of the operations of the script
    ([calculate_years_since_draft], [add_missing_players_to_draft_history],
    [scrape_career_paths], [map_countries_to_alpha3] and
    [create_dataframe_of_career_paths]) and the properties of the design
    document that are stated about them.

    Conventions.
    - Python integers are [Z]; a pandas column that holds integers or nulls
      is [option Z] ([None] is the null / NaN cell).
    - A data frame is the list of its rows, in index order; each frame has a
      record type for its columns.
    - What the script prints is collected, in order, as a list of [printed]
      messages; an exception that the script does not catch ends the
      operation with [Raises].
    - Collaborators (the clock, the proballers site, the pycountry code list,
      the files read) are arguments of the operations. *)

From Stdlib Require Import Ascii String ZArith Lia Permutation Sorted.
From stdpp Require Import gmap strings list fin_maps.

Local Open Scope Z_scope.

(** ** Outcomes, exceptions and printed messages *)

Inductive exn : Type :=
  | ValueError_invalid_literal (text : string)   (* int() on a text that is no number *)
  | ValueError_no_objects_to_concatenate         (* pd.concat([]) *)
  | RequestException                             (* requests.get failed or timed out *)
  | KeyError (columns : list string).            (* columns that a frame does not have *)

Inductive outcome (A : Type) : Type :=
  | Returns (a : A)
  | Raises (e : exn).
Arguments Returns {A} a.
Arguments Raises {A} e.

Inductive printed : Type :=
  | PossibleIncorrectData (season : string) (draft_year : option Z)
  | NoDataForDraftYear (draft_year : Z)
  | UpdatingCareerPaths (players : nat)
  | PlayerLine (season pick : Z) (name : string)
  | NoCareerDataFound (name : string) (id : Z)
  | BlankLine
  | ErrorProcessingCountry (prefix : string)
  | CountriesWithoutMapping (prefixes : list string).

(** ** Text helpers *)

(** [text.split('-')[0]]: the text before the first dash, the whole text
    when it has none. *)
Fixpoint split_dash_first (text : string) : string :=
  match text with
  | EmptyString => EmptyString
  | String c rest =>
      if Ascii.eqb c "-"%char then EmptyString
      else String c (split_dash_first rest)
  end.

Definition digit_value (c : ascii) : option Z :=
  let n := Z.of_nat (nat_of_ascii c) in
  if (48 <=? n) && (n <=? 57) then Some (n - 48) else None.

(** The blanks that [int] skips at both ends of an ASCII text: the
    characters 9 to 13 and the space. *)
Definition is_space (c : ascii) : bool :=
  let n := Z.of_nat (nat_of_ascii c) in
  ((9 <=? n) && (n <=? 13)) || (n =? 32).

Fixpoint lstrip (text : string) : string :=
  match text with
  | EmptyString => EmptyString
  | String c rest => if is_space c then lstrip rest else text
  end.

Fixpoint rstrip (text : string) : string :=
  match text with
  | EmptyString => EmptyString
  | String c rest =>
      match rstrip rest with
      | EmptyString => if is_space c then EmptyString else String c EmptyString
      | kept => String c kept
      end
  end.

(** The digits of a decimal literal, with single underscores allowed
    between two digits; [after_digit] tells whether the character before
    was a digit. *)
Fixpoint int_of_digits (after_digit : bool) (acc : Z) (text : string)
    : option Z :=
  match text with
  | EmptyString => if after_digit then Some acc else None
  | String c rest =>
      if Ascii.eqb c "_"%char
      then if after_digit then int_of_digits false acc rest else None
      else match digit_value c with
           | Some d => int_of_digits true (10 * acc + d) rest
           | None => None
           end
  end.

(** [int(text)] in base 10: blanks at both ends are skipped, then comes an
    optional sign and the digits.  Anything else is a ValueError.  The
    model reads texts of ASCII characters; the decimal digits and blanks of
    other scripts, which [int] reads too, are not in it. *)
Definition py_int (text : string) : outcome Z :=
  let invalid := Raises (ValueError_invalid_literal text) in
  match rstrip (lstrip text) with
  | EmptyString => invalid
  | String c rest =>
      if Ascii.eqb c "+"%char
      then match int_of_digits false 0 rest with
           | Some n => Returns n
           | None => invalid
           end
      else if Ascii.eqb c "-"%char
      then match int_of_digits false 0 rest with
           | Some n => Returns (- n)
           | None => invalid
           end
      else match int_of_digits false 0 (String c rest) with
           | Some n => Returns n
           | None => invalid
           end
  end.

(** ** Timeline: [calculate_years_since_draft] *)

Module Timeline.

(** The test of line 179, [-10 < abs(potential_year - draft_year) < 30]. *)
Definition accepts (potential_year draft_year : Z) : bool :=
  (-10 <? Z.abs (potential_year - draft_year))
  && (Z.abs (potential_year - draft_year) <? 30).

(** The loop of lines 175-180 over a list of century offsets: the offset at
    which the loop returns, [None] when it runs to its end. *)
Fixpoint accepted_century (offsets : list Z)
    (current_century start_yy draft_year : Z) : option Z :=
  match offsets with
  | [] => None
  | century_offset :: rest =>
      let potential_year := current_century + century_offset + start_yy in
      if accepts potential_year draft_year then Some century_offset
      else accepted_century rest current_century start_yy draft_year
  end.

Definition century_of (current_year : Z) : Z :=
  current_year - current_year `mod` 100.

(** The function with the list of century offsets as an argument;
    [current_year] is [datetime.now().year]. *)
Definition years_since_draft_in_order (offsets : list Z)
    (current_year : Z) (season : string) (draft_year : Z)
    : outcome Z * list printed :=
  match py_int (split_dash_first season) with
  | Raises e => (Raises e, [])
  | Returns start_yy =>
      let current_century := century_of current_year in
      match accepted_century offsets current_century start_yy draft_year with
      | Some century_offset =>
          (Returns (current_century + century_offset + start_yy - draft_year), [])
      | None =>
          (Returns (current_century + start_yy - draft_year),
           [PossibleIncorrectData season (Some draft_year)])
      end
  end.

(** The offsets in the order of line 175. *)
Definition century_offsets : list Z := [-100; 0; 100].

Definition calculate_years_since_draft
    (current_year : Z) (season : string) (draft_year : Z)
    : outcome Z * list printed :=
  years_since_draft_in_order century_offsets current_year season draft_year.

(** The draft year of a row without a registry match is NaN: every
    comparison of line 179 is false, the message is printed and the result
    is NaN ([None]). *)
Definition calculate_years_since_draft_nan
    (season : string) : outcome (option Z) * list printed :=
  match py_int (split_dash_first season) with
  | Raises e => (Raises e, [])
  | Returns _ => (Returns None, [PossibleIncorrectData season None])
  end.

(** The design document's normalizer, written from its words (section 4.2):
    candidates in the order current, previous, next century, accepted when
    the signed offset is strictly between -10 and 30. *)
Definition in_window_spec (offset : Z) : bool :=
  (-10 <? offset) && (offset <? 30).

Fixpoint first_in_window_spec (offsets : list Z)
    (current_century start_yy reference_year : Z) : option Z :=
  match offsets with
  | [] => None
  | century_offset :: rest =>
      let candidate_year := current_century + century_offset + start_yy in
      if in_window_spec (candidate_year - reference_year)
      then Some (candidate_year - reference_year)
      else first_in_window_spec rest current_century start_yy reference_year
  end.

Definition years_since_reference_spec
    (current_year : Z) (season_label : string) (reference_year : Z)
    : outcome Z * list printed :=
  match py_int (split_dash_first season_label) with
  | Raises e => (Raises e, [])
  | Returns start_yy =>
      let current_century := century_of current_year in
      match first_in_window_spec [0; -100; 100]
              current_century start_yy reference_year with
      | Some offset => (Returns offset, [])
      | None =>
          (Returns (current_century + start_yy - reference_year),
           [PossibleIncorrectData season_label (Some reference_year)])
      end
  end.

End Timeline.

(** ** Pandas helpers *)

(** [value in column] / [Series.isin] on an integer column. *)
Definition isin (value : Z) (column : list Z) : bool :=
  bool_decide (value ∈ column).

(** [Series.unique()] and [DataFrame.drop_duplicates()]: the first
    occurrence of every value, in the order of first appearance. *)
Fixpoint keep_first `{EqDecision A} (seen : list A) (rows : list A) : list A :=
  match rows with
  | [] => []
  | row :: rest =>
      if bool_decide (row ∈ seen) then keep_first seen rest
      else row :: keep_first (row :: seen) rest
  end.

Definition drop_duplicates `{EqDecision A} (rows : list A) : list A :=
  keep_first [] rows.

(** [pd.concat(frames, ignore_index=True)]: an empty list of frames is a
    ValueError. *)
Definition pd_concat {A} (frames : list (list A)) : outcome (list A) :=
  match frames with
  | [] => Raises ValueError_no_objects_to_concatenate
  | _ => Returns (concat frames)
  end.

(** ** Registry: [add_missing_players_to_draft_history] *)

Module Registry.

(** A record of data/nba_draft_history.json. *)
Record Entrant : Type := {
  PLAYER_NAME : string;
  PROBALLERS_ID : option Z;
  SEASON : Z;
  OVERALL_PICK : Z
}.

(** A cell of a column as Python has it: a number or a text.  A text and
    a number are never equal, whatever the text spells. *)
Inductive py_value : Type :=
  | PyInt (n : Z)
  | PyStr (text : string).

#[global] Instance py_value_eq_dec : EqDecision py_value.
Proof. solve_decision. Defined.

(** [Series.isin] on columns of any cells. *)
Definition isin_values (value : py_value) (column : list py_value) : bool :=
  bool_decide (value ∈ column).

(** A row of the draft history frame of the NBA API, with the columns the
    script reads.  The API gives the draft year as a text ('2024'); it
    becomes a number only by the [astype(int)] of lines 33 and 72. *)
Record DraftRow : Type := {
  api_PLAYER_NAME : string;
  api_SEASON : string;
  api_OVERALL_PICK : Z
}.

#[global] Instance Entrant_eq_dec : EqDecision Entrant.
Proof. solve_decision. Defined.

#[global] Instance DraftRow_eq_dec : EqDecision DraftRow.
Proof. solve_decision. Defined.

(** Lines 63-69.  The year test compares the texts of the fetched frame
    with the numbers of the file. *)
Definition is_new_draft_player (from_file : list Entrant) (row : DraftRow) : bool :=
  negb (isin_values (PyStr (api_SEASON row)) (map (fun player => PyInt (SEASON player)) from_file))
  && negb (isin (api_OVERALL_PICK row) (map OVERALL_PICK from_file)).

(** Lines 72-76 for one row: the draft year as a number and a null
    PROBALLERS_ID. *)
Definition new_draft (row : DraftRow) : outcome Entrant :=
  match py_int (api_SEASON row) with
  | Returns season =>
      Returns {| PLAYER_NAME := api_PLAYER_NAME row;
                 PROBALLERS_ID := None;
                 SEASON := season;
                 OVERALL_PICK := api_OVERALL_PICK row |}
  | Raises e => Raises e
  end.

(** The conversion of a whole frame: the first text that is no number
    raises. *)
Fixpoint new_drafts (rows : list DraftRow) : outcome (list Entrant) :=
  match rows with
  | [] => Returns []
  | row :: rest =>
      match new_draft row with
      | Raises e => Raises e
      | Returns player =>
          match new_drafts rest with
          | Raises e => Raises e
          | Returns players => Returns (player :: players)
          end
      end
  end.

(** The order of [sort_values(['SEASON', 'OVERALL_PICK'],
    ascending=[False, True])]: [a] may stand before [b]. *)
Definition before (a b : Entrant) : bool :=
  (SEASON b <? SEASON a)
  || ((SEASON a =? SEASON b) && (OVERALL_PICK a <=? OVERALL_PICK b)).

Definition stands_before (a b : Entrant) : Prop := before a b = true.

(** A sort on several columns is a stable lexicographic sort: rows with
    equal keys keep their order. *)
Fixpoint insert_sorted (row : Entrant) (sorted : list Entrant) : list Entrant :=
  match sorted with
  | [] => [row]
  | head :: tail =>
      if before row head then row :: head :: tail
      else head :: insert_sorted row tail
  end.

Fixpoint sort_values (rows : list Entrant) : list Entrant :=
  match rows with
  | [] => []
  | row :: rest => insert_sorted row (sort_values rest)
  end.

(** The operation, from the file's records and the fetched frame to the
    records written back (the index is the position in the list).  A file
    that holds no record gives a frame without columns, and line 55 raises
    the KeyError of the column PROBALLERS_ID. *)
Definition add_missing_players_to_draft_history
    (from_file : list Entrant) (from_nba_api : list DraftRow)
    : outcome (list Entrant) :=
  match from_file with
  | [] => Raises (KeyError ["PROBALLERS_ID"%string])
  | _ =>
      match new_drafts
              (filter (fun row => is_new_draft_player from_file row = true)
                 from_nba_api) with
      | Raises e => Raises e
      | Returns df_new_draft => Returns (sort_values (from_file ++ df_new_draft))
      end
  end.

End Registry.

(** ** Scraping: [scrape_career_paths] *)

Module Scrape.
Import Registry.

(** What the profile page of a player gives: the request fails, the page
    has no regular season section, the section has no table, or the table
    with its (Season, Team, League) rows. *)
Inductive page : Type :=
  | RequestFails
  | NoSection
  | NoTable
  | Table (rows : list (string * string * string)).

(** A row of data/career_paths/career_paths_draft_<year>.json. *)
Record CareerRow : Type := {
  Player_Name : string;
  Proballers_ID : Z;
  Season : string;
  Team : string;
  League : string;
  Draft_Year : Z
}.

(** The files of data/career_paths by draft year, and the console. *)
Record store : Type := {
  career_paths : gmap Z (list CareerRow);
  console : list printed
}.

Definition print (lines : list printed) (st : store) : store :=
  {| career_paths := career_paths st; console := console st ++ lines |}.

Definition to_json (draft_year : Z) (frame : list CareerRow) (st : store) : store :=
  {| career_paths := <[draft_year := frame]> (career_paths st);
     console := console st |}.

(** Lines 107-114: the players of the year with a PROBALLERS_ID, each with
    its identifier as an integer. *)
Definition players_to_update (df_draft_history : list Entrant) (draft_year : Z)
    : list (Entrant * Z) :=
  flat_map (fun row =>
    match PROBALLERS_ID row with
    | Some id => if SEASON row =? draft_year then [(row, id)] else []
    | None => []
    end) df_draft_history.

(** Lines 141-146. *)
Definition player_career (row : Entrant) (id draft_year : Z)
    (line : string * string * string) : CareerRow :=
  {| Player_Name := PLAYER_NAME row;
     Proballers_ID := id;
     Season := line.1.1;
     Team := line.1.2;
     League := line.2;
     Draft_Year := draft_year |}.

Section WithSite.

Variable proballers : Z -> page.

(** Lines 119-148: the loop over the players of one year; the frames
    appended to [dfs_career_paths] and the lines printed. *)
Fixpoint scrape_players (draft_year : Z) (players : list (Entrant * Z))
    : outcome (list (list CareerRow)) * list printed :=
  match players with
  | [] => (Returns [], [])
  | (row, id) :: rest =>
      let line := PlayerLine (SEASON row) (OVERALL_PICK row) (PLAYER_NAME row) in
      match proballers id with
      | RequestFails => (Raises RequestException, [line])
      | NoSection =>
          let '(result, lines) := scrape_players draft_year rest in
          (result, line :: NoCareerDataFound (PLAYER_NAME row) id :: lines)
      | NoTable =>
          let '(result, lines) := scrape_players draft_year rest in
          (result, line :: lines)
      | Table rows =>
          let df_player_career := map (player_career row id draft_year) rows in
          match scrape_players draft_year rest with
          | (Returns dfs, lines) => (Returns (df_player_career :: dfs), line :: lines)
          | (Raises e, lines) => (Raises e, line :: lines)
          end
      end
  end.

(** Lines 101-156: the loop over the requested draft years.  [Returns tt]
    is both the end of the loop and the [return] of line 104.  A registry
    file that holds no record gives a frame without columns, and line 102
    raises the KeyError of the column SEASON. *)
Fixpoint scrape_years (df_draft_history : list Entrant)
    (draft_years_to_update : list Z) (st : store) : outcome unit * store :=
  match draft_years_to_update with
  | [] => (Returns tt, st)
  | draft_year :: rest =>
      if bool_decide (df_draft_history = [])
      then (Raises (KeyError ["SEASON"%string]), st)
      else if negb (isin draft_year (map SEASON df_draft_history))
      then (Returns tt, print [NoDataForDraftYear draft_year] st)
      else
        let players := players_to_update df_draft_history draft_year in
        let st1 := print [UpdatingCareerPaths (length players)] st in
        match scrape_players draft_year players with
        | (Raises e, lines) => (Raises e, print lines st1)
        | (Returns dfs_career_paths, lines) =>
            let st2 := print (lines ++ [BlankLine]) st1 in
            match pd_concat dfs_career_paths with
            | Raises e => (Raises e, st2)
            | Returns df_career_paths_draft_year =>
                scrape_years df_draft_history rest
                  (to_json draft_year df_career_paths_draft_year st2)
            end
        end
  end.

(** [df_draft_history] is the content of data/nba_draft_history.json. *)
Definition scrape_career_paths (df_draft_history : list Entrant)
    (draft_years_to_update : list Z) (st : store) : outcome unit * store :=
  scrape_years df_draft_history draft_years_to_update st.

End WithSite.

End Scrape.

(** ** Countries: [map_countries_to_alpha3] *)

Module Countries.

(** An entry of data/league_to_country_mappings.json, with its two keys
    'ALPHA-3' and 'NAME'; both are texts, as in the Country Mapping Entry of
    the design document and in every entry the script itself writes. *)
Record MappingEntry : Type := {
  ALPHA_3 : string;
  NAME : string
}.

(** A placement row, as read from a file of
    data/career_paths_per_draft_year: the player and the columns of the
    proballers table.  The frames read are taken to have no column named
    Draft_Year of their own: that column of the result is the SEASON joined
    from the draft history and renamed at line 285.  (On a frame that has
    one, as the scraper of lines 141-146 writes it, the rename makes two
    columns of that name and line 179 raises; such frames are not in this
    model, which therefore says nothing about when the aggregator returns
    on them.) *)
Record Placement : Type := {
  Player_Name : string;
  Proballers_ID : Z;
  Season : string;
  Team : string;
  League : string
}.

(** The frame handed to the resolver and returned by it.  The two country
    columns are assigned by lines 203-204, whatever they held before. *)
Record Located : Type := {
  placement : Placement;
  League_Prefix : string;
  Country_Alpha3 : option string;
  Country_Name : option string
}.

#[global] Instance MappingEntry_eq_dec : EqDecision MappingEntry.
Proof. solve_decision. Defined.

#[global] Instance Placement_eq_dec : EqDecision Placement.
Proof. solve_decision. Defined.

#[global] Instance Located_eq_dec : EqDecision Located.
Proof. solve_decision. Defined.

(** Lines 201-204: the two columns mapped through the loaded mappings. *)
Definition map_prefix (country_mappings : gmap string MappingEntry)
    (row : Located) : Located :=
  {| placement := placement row;
     League_Prefix := League_Prefix row;
     Country_Alpha3 := ALPHA_3 <$> country_mappings !! League_Prefix row;
     Country_Name := NAME <$> country_mappings !! League_Prefix row |}.

(** [df.loc[df['Country_Alpha3'].isna(), 'League_Prefix'].unique()]. *)
Definition unmapped_prefixes (df : list Located) : list string :=
  drop_duplicates
    (map League_Prefix (filter (fun row => Country_Alpha3 row = None) df)).

(** Lines 228-230: the country of the rows with the prefix. *)
Definition set_country (prefix : string) (found : MappingEntry)
    (df : list Located) : list Located :=
  map (fun row =>
         if bool_decide (League_Prefix row = prefix)
         then {| placement := placement row;
                 League_Prefix := League_Prefix row;
                 Country_Alpha3 := Some (ALPHA_3 found);
                 Country_Name := Some (NAME found) |}
         else row) df.

Section WithCodeList.

(** [pycountry.countries.get(alpha_2=...)] and [get(alpha_3=...)]: the
    country's alpha-3 code and name, [None] when the code list has no such
    country. *)
Variable get_alpha_2 : string -> option MappingEntry.
Variable get_alpha_3 : string -> option MappingEntry.

(** Lines 214-224 for one prefix.  [Some None] is the AttributeError of a
    failed lookup, caught at line 236; [None] is a prefix of another length,
    for which nothing is looked up.  The length is counted in bytes, which
    is the length of the text for the ASCII prefixes of league codes. *)
Definition lookup_country (country_unmapped : string)
    : option (option MappingEntry) :=
  if (String.length country_unmapped =? 2)%nat
  then Some (get_alpha_2 country_unmapped)
  else if (String.length country_unmapped =? 3)%nat
  then Some (get_alpha_3 country_unmapped)
  else None.

(** Lines 213-237: the loop over the prefixes without a mapping; the frame,
    the mappings and the lines printed. *)
Fixpoint resolve_unmapped (countries_without_mapping : list string)
    (df : list Located) (country_mappings : gmap string MappingEntry)
    : list Located * gmap string MappingEntry * list printed :=
  match countries_without_mapping with
  | [] => (df, country_mappings, [])
  | country_unmapped :: rest =>
      match lookup_country country_unmapped with
      | Some (Some found) =>
          resolve_unmapped rest
            (set_country country_unmapped found df)
            (<[country_unmapped := found]> country_mappings)
      | Some None =>
          let '(df', mappings', lines) :=
            resolve_unmapped rest df country_mappings in
          (df', mappings', ErrorProcessingCountry country_unmapped :: lines)
      | None => resolve_unmapped rest df country_mappings
      end
  end.

(** The operation: the frame with its country columns, the mappings saved
    to the file, and the lines printed. *)
Definition map_countries_to_alpha3
    (df_career_paths : list Located) (country_mappings : gmap string MappingEntry)
    : list Located * gmap string MappingEntry * list printed :=
  let df := map (map_prefix country_mappings) df_career_paths in
  let countries_without_mapping := unmapped_prefixes df in
  let '(df', mappings', lines) :=
    resolve_unmapped countries_without_mapping df country_mappings in
  (df', mappings',
   lines ++ [CountriesWithoutMapping (unmapped_prefixes df'); BlankLine]).

End WithCodeList.

End Countries.

(** ** Aggregation: [create_dataframe_of_career_paths] *)

Module Aggregator.
Import Registry Countries.

(** The frame after the merge with the draft history (lines 275-287). *)
Record Joined : Type := {
  located : Located;
  Draft_Year : option Z;
  Overall_Pick : option Z
}.

(** A row of the result. *)
Record CareerPath : Type := {
  joined : Joined;
  Years_From_Draft : option Z
}.

#[global] Instance Joined_eq_dec : EqDecision Joined.
Proof. solve_decision. Defined.

#[global] Instance CareerPath_eq_dec : EqDecision CareerPath.
Proof. solve_decision. Defined.

(** Line 270. *)
Definition with_prefix (row : Placement) : Located :=
  {| placement := row;
     League_Prefix := split_dash_first (League row);
     Country_Alpha3 := None;
     Country_Name := None |}.

(** The left merge on the identifier: one row for every record of the
    draft history with the identifier of the placement, in the order of the
    history; one row with null draft columns when there is none. *)
Definition merge_left (df_draft_history : list Entrant) (row : Located)
    : list Joined :=
  match filter (fun player =>
                  PROBALLERS_ID player = Some (Proballers_ID (placement row)))
               df_draft_history with
  | [] => [{| located := row; Draft_Year := None; Overall_Pick := None |}]
  | matches =>
      map (fun player =>
             {| located := row;
                Draft_Year := Some (SEASON player);
                Overall_Pick := Some (OVERALL_PICK player) |}) matches
  end.

(** Line 290 for one row. *)
Definition years_from_draft (current_year : Z) (row : Joined)
    : outcome (option Z) * list printed :=
  match Draft_Year row with
  | Some draft_year =>
      match Timeline.calculate_years_since_draft current_year
              (Season (placement (located row))) draft_year with
      | (Returns years, lines) => (Returns (Some years), lines)
      | (Raises e, lines) => (Raises e, lines)
      end
  | None =>
      Timeline.calculate_years_since_draft_nan (Season (placement (located row)))
  end.

(** Lines 289-292: the function applied to the rows in order. *)
Fixpoint apply_years (current_year : Z) (df : list Joined)
    : outcome (list CareerPath) * list printed :=
  match df with
  | [] => (Returns [], [])
  | row :: rest =>
      match years_from_draft current_year row with
      | (Raises e, lines) => (Raises e, lines)
      | (Returns years, lines) =>
          match apply_years current_year rest with
          | (Raises e, lines') => (Raises e, lines ++ lines')
          | (Returns rows, lines') =>
              (Returns ({| joined := row; Years_From_Draft := years |} :: rows),
               lines ++ lines')
          end
      end
  end.

(** Lines 296-299; a comparison with NaN is false. *)
Definition is_plausible (row : CareerPath) : bool :=
  match Years_From_Draft row with
  | Some years => (-10 <? years) && (years <=? 30)
  | None => false
  end.

Section WithCodeList.

Variable get_alpha_2 : string -> option MappingEntry.
Variable get_alpha_3 : string -> option MappingEntry.

(** The operation.  [batches] are the frames of the files of
    data/career_paths_per_draft_year in the order of the listing,
    [country_mappings] and [df_draft_history] the contents of the two other
    files, [current_year] the clock.  The result is the frame returned, the
    mappings saved and the lines printed.  Files that hold no row give a
    frame without columns: line 270 then raises the KeyError of the column
    League, and line 277 that of the columns of an empty draft history. *)
Definition create_dataframe_of_career_paths
    (current_year : Z) (batches : list (list Placement))
    (country_mappings : gmap string MappingEntry)
    (df_draft_history : list Entrant)
    : outcome (list CareerPath) * gmap string MappingEntry * list printed :=
  match pd_concat batches with
  | Raises e => (Raises e, country_mappings, [])
  | Returns df_career_paths =>
      if bool_decide (df_career_paths = [])
      then (Raises (KeyError ["League"%string]), country_mappings, [])
      else
        let '(df, mappings', lines) :=
          map_countries_to_alpha3 get_alpha_2 get_alpha_3
            (map with_prefix df_career_paths) country_mappings in
        if bool_decide (df_draft_history = [])
        then (Raises (KeyError ["PROBALLERS_ID"; "SEASON"; "OVERALL_PICK"]%string),
              mappings', lines)
        else
          let df_joined := flat_map (merge_left df_draft_history) df in
          match apply_years current_year df_joined with
          | (Raises e, lines') => (Raises e, mappings', lines ++ lines')
          | (Returns rows, lines') =>
              (Returns (drop_duplicates
                          (filter (fun row => is_plausible row = true) rows)),
               mappings', lines ++ lines')
          end
  end.

End WithCodeList.

End Aggregator.

(** ** The figure: [plot_countries_per_year_away_from_draft] and the app *)

Module Visualisations.
Import Countries Aggregator.

(** [drop_duplicates(subset)]: the first row of every value of the key
    columns, in the order of the frame. *)
Fixpoint keep_first_on {A K} `{EqDecision K} (key : A -> K)
    (seen : list K) (rows : list A) : list A :=
  match rows with
  | [] => []
  | row :: rest =>
      if bool_decide (key row ∈ seen) then keep_first_on key seen rest
      else row :: keep_first_on key (key row :: seen) rest
  end.

Definition drop_duplicates_on {A K} `{EqDecision K} (key : A -> K)
    (rows : list A) : list A :=
  keep_first_on key [] rows.

(** The columns ['Proballers_ID', 'Years_From_Draft', 'Country_Alpha3']. *)
Definition player_year_country (row : CareerPath)
    : Z * option Z * option string :=
  (Proballers_ID (placement (located (joined row))),
   Years_From_Draft row,
   Country_Alpha3 (located (joined row))).

(** The group of a row for
    [groupby(['Years_From_Draft', 'Country_Alpha3', 'Country_Name'])]; a
    row with a null in one of the three columns is in no group. *)
Definition group_of (row : CareerPath) : option (Z * string * string) :=
  match Years_From_Draft row,
        Country_Alpha3 (located (joined row)),
        Country_Name (located (joined row)) with
  | Some years, Some alpha3, Some name => Some (years, alpha3, name)
  | _, _, _ => None
  end.

(** The groups come in the order of their keys. *)
Definition group_leb (a b : Z * string * string) : bool :=
  (a.1.1 <? b.1.1)
  || ((a.1.1 =? b.1.1)
      && (String.ltb a.1.2 b.1.2
          || (String.eqb a.1.2 b.1.2 && String.leb a.2 b.2))).

Fixpoint insert_group (group : Z * string * string)
    (sorted : list (Z * string * string)) : list (Z * string * string) :=
  match sorted with
  | [] => [group]
  | head :: tail =>
      if group_leb group head then group :: head :: tail
      else head :: insert_group group tail
  end.

Fixpoint sort_groups (groups : list (Z * string * string))
    : list (Z * string * string) :=
  match groups with
  | [] => []
  | group :: rest => insert_group group (sort_groups rest)
  end.

(** A row of [df_countries_per_year_from_draft]. *)
Record CountRow : Type := {
  count_Years_From_Draft : Z;
  count_Country_Alpha3 : string;
  count_Country_Name : string;
  Count : nat
}.

Definition count_group (row : CountRow) : Z * string * string :=
  (count_Years_From_Draft row, count_Country_Alpha3 row, count_Country_Name row).

(** [groupby(...).size().reset_index(name='Count')]. *)
Definition groupby_size (df : list CareerPath) : list CountRow :=
  let groups := omap group_of df in
  map (fun group =>
         {| count_Years_From_Draft := group.1.1;
            count_Country_Alpha3 := group.1.2;
            count_Country_Name := group.2;
            Count := length (filter (fun other => other = group) groups) |})
      (sort_groups (drop_duplicates groups)).

(** [Series.min()] and [Series.max()]: nulls are skipped, a column
    without a number gives a null. *)
Definition column_min (cells : list (option Z)) : option Z :=
  foldr (fun cell least =>
           match cell, least with
           | Some x, Some m => Some (Z.min x m)
           | Some x, None => Some x
           | None, _ => least
           end) None cells.

Definition column_max (cells : list (option Z)) : option Z :=
  foldr (fun cell most =>
           match cell, most with
           | Some x, Some m => Some (Z.max x m)
           | Some x, None => Some x
           | None, _ => most
           end) None cells.

(** What the function hands to [px.scatter_geo]: the frame of the counts
    and the two draft years of the subtitle.  The other arguments of the
    figure are constants. *)
Record figure_data : Type := {
  data_frame : list CountRow;
  min_draft_year : option Z;
  max_draft_year : option Z
}.

Definition plot_countries_per_year_away_from_draft
    (df_career_paths : list CareerPath) : figure_data :=
  let df := drop_duplicates_on player_year_country df_career_paths in
  {| data_frame := groupby_size df;
     min_draft_year := column_min (map (fun row => Draft_Year (joined row)) df);
     max_draft_year := column_max (map (fun row => Draft_Year (joined row)) df) |}.

(** scripts/app_career_paths.py: the figure of the frame of the
    aggregator. *)
Definition app
    (get_alpha_2 get_alpha_3 : string -> option MappingEntry)
    (current_year : Z) (batches : list (list Placement))
    (country_mappings : gmap string MappingEntry)
    (df_draft_history : list Registry.Entrant) : outcome figure_data :=
  match (create_dataframe_of_career_paths get_alpha_2 get_alpha_3
           current_year batches country_mappings df_draft_history).1.1 with
  | Returns df_career_paths =>
      Returns (plot_countries_per_year_away_from_draft df_career_paths)
  | Raises e => Raises e
  end.

End Visualisations.

(** ** Sample data for the examples *)

Module Samples.
Import Registry.

(** A registry with one player, drafted in 2020. *)
Definition registry_2020 : list Entrant :=
  [{| PLAYER_NAME := "A"; PROBALLERS_ID := Some 7; SEASON := 2020;
      OVERALL_PICK := 1 |}].

(** A site on which every page has a table of one row, and a site on
    which no page has the regular season section. *)
Definition site_with_table (id : Z) : Scrape.page :=
  Scrape.Table [("20-21"%string, "Team"%string, "FRA-1"%string)].

Definition site_without_section (id : Z) : Scrape.page := Scrape.NoSection.

Definition fresh_store : Scrape.store :=
  {| Scrape.career_paths := ∅; Scrape.console := [] |}.

(** A code list with two countries. *)
Definition code_list_alpha_3 (code : string) : option Countries.MappingEntry :=
  if String.eqb code "ARG"
  then Some {| Countries.ALPHA_3 := "ARG"; Countries.NAME := "Argentina" |}
  else if String.eqb code "FRA"
  then Some {| Countries.ALPHA_3 := "FRA"; Countries.NAME := "France" |}
  else None.

Definition code_list_alpha_2 (code : string) : option Countries.MappingEntry :=
  if String.eqb code "FR"
  then Some {| Countries.ALPHA_3 := "FRA"; Countries.NAME := "France" |}
  else None.

(** Placements of the player of [registry_2020]: one in the season after
    the draft, one in a season '60-61'. *)
Definition placement_20_21 : Countries.Placement :=
  {| Countries.Player_Name := "A"; Countries.Proballers_ID := 7;
     Countries.Season := "20-21"; Countries.Team := "Team";
     Countries.League := "FRA-1" |}.

Definition placement_60_61 : Countries.Placement :=
  {| Countries.Player_Name := "A"; Countries.Proballers_ID := 7;
     Countries.Season := "60-61"; Countries.Team := "Team";
     Countries.League := "FRA-1" |}.

(** The row of the result for [placement_20_21]. *)
Definition career_path_20_21 : Aggregator.CareerPath :=
  {| Aggregator.joined :=
       {| Aggregator.located :=
            {| Countries.placement := placement_20_21;
               Countries.League_Prefix := "FRA";
               Countries.Country_Alpha3 := Some "FRA"%string;
               Countries.Country_Name := Some "France"%string |};
          Aggregator.Draft_Year := Some 2020;
          Aggregator.Overall_Pick := Some 1 |};
     Aggregator.Years_From_Draft := Some 0 |}.

End Samples.

(** ** The first build and the entry point: [download_draft_history], [main] *)

Module Build.
Import Registry.

(** Lines 32-41: every fetched row with its draft year as a number and a
    null PROBALLERS_ID, in the order of the fetched frame; the records
    written to the file. *)
Definition download_draft_history (from_nba_api : list DraftRow)
    : outcome (list Entrant) :=
  new_drafts from_nba_api.

(** [range(start, stop)]. *)
Definition py_range (start stop : Z) : list Z :=
  map (fun i => start + Z.of_nat i) (seq 0 (Z.to_nat (stop - start))).

(** Lines 319-323: the reconciliation, then the update of the draft years
    from 2003 to the current year, on the registry just written.  The
    result is the outcome of the reconciliation with the registry written,
    and the outcome of the update with the store; an exception of the
    reconciliation ends [main] before the update. *)
Definition main (proballers : Z -> Scrape.page) (current_year : Z)
    (from_file : list Entrant) (from_nba_api : list DraftRow)
    (st : Scrape.store)
    : outcome (list Entrant) * (outcome unit * Scrape.store) :=
  match add_missing_players_to_draft_history from_file from_nba_api with
  | Raises e => (Raises e, (Raises e, st))
  | Returns df_draft_history =>
      (Returns df_draft_history,
       Scrape.scrape_career_paths proballers df_draft_history
         (py_range 2003 (current_year + 1)) st)
  end.

End Build.

(** ** Notions used in the statements *)

(** A text with a dash. *)
Fixpoint has_dash (text : string) : bool :=
  match text with
  | EmptyString => false
  | String c rest => Ascii.eqb c "-"%char || has_dash rest
  end.

(** The key of a record of the registry. *)
Definition draft_key (player : Registry.Entrant) : Z * Z :=
  (Registry.SEASON player, Registry.OVERALL_PICK player).

(** The key of a fetched row: the draft year that its text spells, and
    the pick. *)
Definition api_draft_key (row : Registry.DraftRow) : outcome Z * Z :=
  (py_int (Registry.api_SEASON row), Registry.api_OVERALL_PICK row).

(** The rows that the tables of the players of a draft year give, in the
    order of the registry. *)
Definition tables_of_year (proballers : Z -> Scrape.page)
    (df_draft_history : list Registry.Entrant) (draft_year : Z)
    : list Scrape.CareerRow :=
  flat_map (fun player : Registry.Entrant * Z =>
              match proballers player.2 with
              | Scrape.Table rows =>
                  map (Scrape.player_career player.1 player.2 draft_year) rows
              | _ => []
              end)
           (Scrape.players_to_update df_draft_history draft_year).

(** The frame of the aggregator after the merge with the draft history
    (line 281), before the years from draft are computed. *)
Definition joined_frame
    (get_alpha_2 get_alpha_3 : string -> option Countries.MappingEntry)
    (batches : list (list Countries.Placement))
    (country_mappings : gmap string Countries.MappingEntry)
    (df_draft_history : list Registry.Entrant) : list Aggregator.Joined :=
  flat_map (Aggregator.merge_left df_draft_history)
    (Countries.map_countries_to_alpha3 get_alpha_2 get_alpha_3
       (map Aggregator.with_prefix (concat batches)) country_mappings).1.1.

(** A site on which no page can be fetched. *)
Definition site_unreachable (id : Z) : Scrape.page := Scrape.RequestFails.

(** * Properties *)

(** ** The timeline normalizer *)

Section TimelineFacts.
Import Timeline.

Example split_season : split_dash_first "99-00" = "99"%string.
Proof. reflexivity. Qed.

Example int_05 : py_int "05" = Returns 5.
Proof. reflexivity. Qed.

(** What [int] reads besides plain digits, and what it refuses. *)
Example int_reads_blanks_sign_underscore :
  py_int " 20" = Returns 20 /\ py_int "20 " = Returns 20
  /\ py_int "+5" = Returns 5 /\ py_int "-5" = Returns (-5)
  /\ py_int "2_3" = Returns 23.
Proof. repeat split. Qed.

Example int_refuses :
  py_int "" = Raises (ValueError_invalid_literal "")
  /\ py_int "2__3" = Raises (ValueError_invalid_literal "2__3")
  /\ py_int "_2" = Raises (ValueError_invalid_literal "_2")
  /\ py_int "2_" = Raises (ValueError_invalid_literal "2_")
  /\ py_int "+ 5" = Raises (ValueError_invalid_literal "+ 5")
  /\ py_int "1.5" = Raises (ValueError_invalid_literal "1.5")
  /\ py_int "2 0" = Raises (ValueError_invalid_literal "2 0").
Proof. repeat split. Qed.

Example years_99_00 :
  calculate_years_since_draft 2026 "99-00" 1998 = (Returns 1, []).
Proof. reflexivity. Qed.

(** With [abs], the lower bound of line 179 holds for every candidate: the
    test is the symmetric window of 30 years on both sides. *)
Lemma accepts_iff potential_year draft_year :
  accepts potential_year draft_year = true
  <-> -30 < potential_year - draft_year < 30.
Proof.
  unfold accepts. rewrite andb_true_iff, !Z.ltb_lt. lia.
Qed.

Lemma accepts_false_iff potential_year draft_year :
  accepts potential_year draft_year = false
  <-> ~ (-30 < potential_year - draft_year < 30).
Proof.
  rewrite <- accepts_iff. destruct (accepts _ _); split; congruence.
Qed.

(** Two accepted candidates of the same label are the same candidate. *)
Lemma accepted_unique current_century start_yy draft_year a b :
  a ∈ century_offsets -> b ∈ century_offsets ->
  accepts (current_century + a + start_yy) draft_year = true ->
  accepts (current_century + b + start_yy) draft_year = true ->
  a = b.
Proof.
  unfold century_offsets. rewrite !accepts_iff, !elem_of_cons, !elem_of_nil.
  lia.
Qed.

(** The loop does not depend on the order of a list in which at most one
    offset is accepted. *)
Lemma accepted_century_perm current_century start_yy draft_year l l' :
  Permutation l l' ->
  (forall a b, a ∈ l -> b ∈ l ->
     accepts (current_century + a + start_yy) draft_year = true ->
     accepts (current_century + b + start_yy) draft_year = true -> a = b) ->
  accepted_century l current_century start_yy draft_year
  = accepted_century l' current_century start_yy draft_year.
Proof.
  induction 1 as [|x l l' Hp IH|x y l|l l' l'' Hp1 IH1 Hp2 IH2]; intros Huniq.
  - reflexivity.
  - simpl. destruct (accepts _ _); [reflexivity|].
    apply IH. intros a b Ha Hb. apply Huniq; now constructor.
  - simpl.
    destruct (accepts (current_century + y + start_yy) draft_year) eqn:Hy,
             (accepts (current_century + x + start_yy) draft_year) eqn:Hx;
      try reflexivity.
    f_equal. apply Huniq; auto; set_solver.
  - rewrite IH1 by assumption. apply IH2.
    intros a b Ha Hb. apply Huniq; now rewrite Hp1.
Qed.

(** A candidate inside the window of the design document is returned by
    the code as well, whatever its place in the order. *)
Lemma inside_window_is_accepted current_year season draft_year start_yy a :
  py_int (split_dash_first season) = Returns start_yy ->
  a ∈ century_offsets ->
  -10 < century_of current_year + a + start_yy - draft_year < 30 ->
  calculate_years_since_draft current_year season draft_year
  = (Returns (century_of current_year + a + start_yy - draft_year), []).
Proof.
  intros Hyy Ha Hwin.
  unfold calculate_years_since_draft, years_since_draft_in_order. rewrite Hyy.
  unfold century_offsets in *. cbn [accepted_century].
  repeat match goal with
         | |- context [accepts ?p ?d] =>
             let E := fresh "E" in
             destruct (accepts p d) eqn:E;
             [apply accepts_iff in E | apply accepts_false_iff in E]
         end;
    rewrite !elem_of_cons, elem_of_nil in Ha;
    try (exfalso; lia); repeat f_equal; lia.
Qed.

(** C1 (evaluation of the code where the claim fails).  Season '95-96',
    draft year 2010, clock 2026: the previous-century candidate 1995 has
    the signed offset -15, which is not strictly between -10 and 30, yet
    the test of line 179 accepts it and the function returns -15 without a
    warning; the normalizer of the design document finds no candidate and
    falls back to 2095 - 2010 = 85 with the warning. *)
Theorem C1_offset_minus_15_is_accepted :
  accepts 1995 2010 = true
  /\ in_window_spec (1995 - 2010) = false
  /\ calculate_years_since_draft 2026 "95-96" 2010 = (Returns (-15), [])
  /\ years_since_reference_spec 2026 "95-96" 2010
     = (Returns 85, [PossibleIncorrectData "95-96" (Some 2010)]).
Proof. repeat split. Qed.

(** C3 (evaluation of the code where the claim fails).  Season '05-06',
    draft year 2023, any clock of the century 2000: the candidate 2005 is
    accepted by the test of line 179, so the function returns -18 from
    inside the loop and prints no warning; the fallback of lines 182-183 is
    not reached. *)
Theorem C3_season_05_06_draft_2023_no_warning current_year :
  century_of current_year = 2000 ->
  accepted_century century_offsets 2000 5 2023 = Some 0
  /\ calculate_years_since_draft current_year "05-06" 2023 = (Returns (-18), [])
  /\ years_since_reference_spec current_year "05-06" 2023
     = (Returns (-18), [PossibleIncorrectData "05-06" (Some 2023)]).
Proof.
  intros Hc.
  unfold calculate_years_since_draft, years_since_draft_in_order,
    years_since_reference_spec.
  rewrite Hc. repeat split.
Qed.

Lemma C3_season_05_06_draft_2023_no_warning_witness :
  century_of 2026 = 2000
  /\ calculate_years_since_draft 2026 "05-06" 2023 = (Returns (-18), []).
Proof.
  split; [reflexivity|].
  apply (C3_season_05_06_draft_2023_no_warning 2026). reflexivity.
Defined.

(** C4.  When the current-century candidate of a label lies between
    [draft_year - 9] and [draft_year + 29], the loop returns at the century
    offset 0 and the function returns that candidate's offset, without a
    warning. *)
Theorem C4_current_century_candidate_selected
    current_year season draft_year start_yy :
  py_int (split_dash_first season) = Returns start_yy ->
  draft_year - 9 <= century_of current_year + start_yy <= draft_year + 29 ->
  accepted_century century_offsets (century_of current_year) start_yy draft_year
  = Some 0
  /\ calculate_years_since_draft current_year season draft_year
     = (Returns (century_of current_year + start_yy - draft_year), []).
Proof.
  intros Hyy Hwin.
  assert (Hprev : accepts (century_of current_year + -100 + start_yy) draft_year
                  = false) by (apply accepts_false_iff; lia).
  assert (Hcur : accepts (century_of current_year + 0 + start_yy) draft_year
                 = true) by (apply accepts_iff; lia).
  assert (Hloop : accepted_century century_offsets (century_of current_year)
                    start_yy draft_year = Some 0).
  { unfold century_offsets. cbn [accepted_century]. now rewrite Hprev, Hcur. }
  split; [exact Hloop|].
  unfold calculate_years_since_draft, years_since_draft_in_order.
  rewrite Hyy. cbv zeta. rewrite Hloop. repeat f_equal. lia.
Qed.

Lemma C4_current_century_candidate_selected_witness :
  calculate_years_since_draft 2026 "23-24" 2020 = (Returns 3, []).
Proof.
  apply (C4_current_century_candidate_selected 2026 "23-24" 2020 23).
  - reflexivity.
  - vm_compute. split; discriminate.
Defined.

(** C9.  At most one of the three century candidates passes the test of
    line 179, and the function returns the same result and prints the same
    lines for every order of the three offsets. *)
Theorem C9_evaluation_order_irrelevant
    offsets current_year season draft_year :
  Permutation offsets century_offsets ->
  (forall start_yy a b,
     a ∈ century_offsets -> b ∈ century_offsets ->
     accepts (century_of current_year + a + start_yy) draft_year = true ->
     accepts (century_of current_year + b + start_yy) draft_year = true ->
     a = b)
  /\ years_since_draft_in_order offsets current_year season draft_year
     = calculate_years_since_draft current_year season draft_year.
Proof.
  intros Hperm. split.
  - intros start_yy a b. apply accepted_unique.
  - unfold calculate_years_since_draft, years_since_draft_in_order.
    destruct (py_int (split_dash_first season)) as [start_yy|e]; [|reflexivity].
    cbv zeta.
    rewrite (accepted_century_perm _ _ _ _ _ Hperm); [reflexivity|].
    intros a b Ha Hb. apply accepted_unique; now rewrite <- Hperm.
Qed.

Lemma C9_evaluation_order_irrelevant_witness :
  years_since_draft_in_order [0; 100; -100] 2026 "23-24" 2020
  = calculate_years_since_draft 2026 "23-24" 2020.
Proof.
  apply (C9_evaluation_order_irrelevant [0; 100; -100] 2026 "23-24" 2020).
  unfold century_offsets.
  apply Permutation_sym, (Permutation_cons_append [0; 100] (-100)).
Defined.

End TimelineFacts.

(** ** The registry reconciler *)

Section RegistryFacts.
Import Registry.

Lemma isin_true value column : isin value column = true <-> value ∈ column.
Proof. unfold isin. apply bool_decide_eq_true. Qed.

Lemma isin_false value column : isin value column = false <-> value ∉ column.
Proof. unfold isin. apply bool_decide_eq_false. Qed.

(** A text is in no column of numbers: the year test of line 64 never
    finds the draft year of a fetched row in the file. *)
Lemma text_not_in_numbers text (from_file : list Entrant) :
  isin_values (PyStr text) (map (fun player => PyInt (SEASON player)) from_file)
  = false.
Proof.
  unfold isin_values. apply bool_decide_eq_false. intros Hin.
  apply list_elem_of_fmap in Hin as (player & Heq & _). discriminate.
Qed.

Lemma is_new_draft_player_spec from_file row :
  is_new_draft_player from_file row = true
  <-> api_OVERALL_PICK row ∉ map OVERALL_PICK from_file.
Proof.
  unfold is_new_draft_player.
  rewrite text_not_in_numbers, andb_true_iff, !negb_true_iff, isin_false.
  tauto.
Qed.

Lemma new_drafts_returns rows players :
  new_drafts rows = Returns players ->
  Forall2 (fun row player => new_draft row = Returns player) rows players.
Proof.
  revert players. induction rows as [|row rest IH]; intros players; simpl.
  - intros [= <-]. constructor.
  - destruct (new_draft row) as [player|e] eqn:Hrow; [|discriminate].
    destruct (new_drafts rest) as [others|e]; [|discriminate].
    intros [= <-]. constructor; [exact Hrow|]. now apply IH.
Qed.

Lemma new_draft_returns row player :
  new_draft row = Returns player ->
  PLAYER_NAME player = api_PLAYER_NAME row
  /\ PROBALLERS_ID player = None
  /\ py_int (api_SEASON row) = Returns (SEASON player)
  /\ OVERALL_PICK player = api_OVERALL_PICK row.
Proof.
  unfold new_draft. destruct (py_int (api_SEASON row)) as [season|e];
    [|discriminate].
  intros [= <-]. now repeat split.
Qed.

(** What the operation returns, when it returns. *)
Lemma add_missing_returns from_file from_nba_api written :
  add_missing_players_to_draft_history from_file from_nba_api = Returns written ->
  from_file <> []
  /\ exists df_new_draft,
       new_drafts (filter (fun row => is_new_draft_player from_file row = true)
                     from_nba_api) = Returns df_new_draft
       /\ written = sort_values (from_file ++ df_new_draft).
Proof.
  unfold add_missing_players_to_draft_history.
  destruct from_file as [|player others]; [discriminate|].
  destruct (new_drafts _) as [df_new_draft|e]; [|discriminate].
  intros [= <-]. split; [discriminate|]. now exists df_new_draft.
Qed.

Lemma before_total a b : before a b = false -> before b a = true.
Proof.
  unfold before. rewrite orb_false_iff, orb_true_iff, andb_false_iff.
  rewrite andb_true_iff, !Z.ltb_ge, !Z.ltb_lt, !Z.eqb_neq, Z.eqb_eq.
  rewrite Z.leb_gt, Z.leb_le. lia.
Qed.

Lemma insert_sorted_perm row sorted :
  Permutation (insert_sorted row sorted) (row :: sorted).
Proof.
  induction sorted as [|head tail IH]; simpl; [reflexivity|].
  destruct (before row head); [reflexivity|].
  rewrite IH. apply perm_swap.
Qed.

Lemma sort_values_perm rows : Permutation (sort_values rows) rows.
Proof.
  induction rows as [|row rest IH]; simpl; [reflexivity|].
  rewrite insert_sorted_perm. now constructor.
Qed.

Lemma insert_sorted_hd row x sorted :
  stands_before x row -> HdRel stands_before x sorted ->
  HdRel stands_before x (insert_sorted row sorted).
Proof.
  intros Hx Hhd. destruct sorted as [|head tail]; simpl.
  - now constructor.
  - destruct (before row head); constructor; [assumption|].
    now inversion Hhd.
Qed.

Lemma insert_sorted_sorted row sorted :
  Sorted stands_before sorted -> Sorted stands_before (insert_sorted row sorted).
Proof.
  induction 1 as [|head tail Htail IH Hhd]; simpl.
  - repeat constructor.
  - destruct (before row head) eqn:E.
    + constructor; [now constructor|]. now constructor.
    + constructor; [assumption|].
      apply insert_sorted_hd; [|assumption]. now apply before_total.
Qed.

Lemma sort_values_sorted rows : Sorted stands_before (sort_values rows).
Proof.
  induction rows as [|row rest IH]; simpl; [constructor|].
  now apply insert_sorted_sorted.
Qed.

(** Sorting a sorted frame changes nothing: the sort is stable. *)
Lemma sort_values_id rows : Sorted stands_before rows -> sort_values rows = rows.
Proof.
  induction 1 as [|head tail Htail IH Hhd]; simpl; [reflexivity|].
  rewrite IH. destruct Hhd as [|next rest Hnext]; simpl; [reflexivity|].
  unfold stands_before in Hnext. now rewrite Hnext.
Qed.

Lemma filter_none {A} (P : A -> Prop) `{forall x, Decision (P x)} (l : list A) :
  (forall x, x ∈ l -> ~ P x) -> filter P l = [].
Proof.
  induction l as [|x l IH]; intros Hall; [reflexivity|].
  rewrite filter_cons_False by (apply Hall; left).
  apply IH. intros y Hy. apply Hall. now right.
Qed.

(** After a reconciliation no fetched row is new any more. *)
Lemma nothing_new_after from_file from_nba_api written row :
  add_missing_players_to_draft_history from_file from_nba_api = Returns written ->
  row ∈ from_nba_api ->
  is_new_draft_player written row = false.
Proof.
  intros Hrun Hin.
  apply add_missing_returns in Hrun as (_ & added & Hadded & ->).
  apply not_true_is_false. rewrite is_new_draft_player_spec.
  intros Hpick. apply Hpick.
  rewrite (sort_values_perm (from_file ++ added)), map_app, elem_of_app.
  destruct (is_new_draft_player from_file row) eqn:Hnew.
  - right. apply new_drafts_returns in Hadded.
    assert (Hrow : row ∈ filter
                     (fun row => is_new_draft_player from_file row = true)
                     from_nba_api)
      by (apply list_elem_of_filter; now split).
    apply list_elem_of_lookup in Hrow as [i Hi].
    destruct (Forall2_lookup_l _ _ _ _ _ Hadded Hi) as (player & Hplayer & Hconv).
    apply new_draft_returns in Hconv as (_ & _ & _ & <-).
    apply list_elem_of_fmap. exists player. split; [reflexivity|].
    apply list_elem_of_lookup. now exists i.
  - left. apply not_true_iff_false in Hnew.
    rewrite is_new_draft_player_spec in Hnew.
    destruct (decide (api_OVERALL_PICK row ∈ map OVERALL_PICK from_file));
      [assumption|contradiction].
Qed.

(** C5 (evaluation of the code where the claim fails).  The file has the
    picks 1 and 2 of the draft year 2024 and the fetched frame has the
    pick 6 of '2024'.  The draft year of the fetched row is in the file,
    so by the claim the row is not new; the code classifies it as new and
    appends it with a null PROBALLERS_ID: the year test of line 64 compares
    the text '2024' with the numbers of the file and never matches, and the
    test that the code runs is that of the pick alone. *)
Theorem C5_year_test_never_matches :
  (forall (from_file : list Entrant) (row : DraftRow),
     is_new_draft_player from_file row = true
     <-> api_OVERALL_PICK row ∉ map OVERALL_PICK from_file)
  /\ py_int "2024" = Returns 2024
  /\ (2024 ∈ map SEASON
                [{| PLAYER_NAME := "P1"; PROBALLERS_ID := Some 11;
                    SEASON := 2024; OVERALL_PICK := 1 |};
                 {| PLAYER_NAME := "P2"; PROBALLERS_ID := Some 12;
                    SEASON := 2024; OVERALL_PICK := 2 |}])
  /\ is_new_draft_player
       [{| PLAYER_NAME := "P1"; PROBALLERS_ID := Some 11;
           SEASON := 2024; OVERALL_PICK := 1 |};
        {| PLAYER_NAME := "P2"; PROBALLERS_ID := Some 12;
           SEASON := 2024; OVERALL_PICK := 2 |}]
       {| api_PLAYER_NAME := "P6"; api_SEASON := "2024";
          api_OVERALL_PICK := 6 |}
     = true
  /\ add_missing_players_to_draft_history
       [{| PLAYER_NAME := "P1"; PROBALLERS_ID := Some 11;
           SEASON := 2024; OVERALL_PICK := 1 |};
        {| PLAYER_NAME := "P2"; PROBALLERS_ID := Some 12;
           SEASON := 2024; OVERALL_PICK := 2 |}]
       [{| api_PLAYER_NAME := "P1"; api_SEASON := "2024";
           api_OVERALL_PICK := 1 |};
        {| api_PLAYER_NAME := "P2"; api_SEASON := "2024";
           api_OVERALL_PICK := 2 |};
        {| api_PLAYER_NAME := "P6"; api_SEASON := "2024";
           api_OVERALL_PICK := 6 |}]
     = Returns
         [{| PLAYER_NAME := "P1"; PROBALLERS_ID := Some 11;
             SEASON := 2024; OVERALL_PICK := 1 |};
          {| PLAYER_NAME := "P2"; PROBALLERS_ID := Some 12;
             SEASON := 2024; OVERALL_PICK := 2 |};
          {| PLAYER_NAME := "P6"; PROBALLERS_ID := None;
             SEASON := 2024; OVERALL_PICK := 6 |}].
Proof.
  split; [intros from_file row; apply is_new_draft_player_spec|].
  split; [reflexivity|]. split; [left|]. split; reflexivity.
Qed.

(** C6.  Reconciling the result of a reconciliation with the same fetched
    frame gives that result again: reconciling twice has the outcome of
    reconciling once.  (When the first reconciliation raises, there is no
    result to reconcile again.) *)
Theorem C6_reconcile_idempotent
    (from_file : list Entrant) (from_nba_api : list DraftRow) :
  match add_missing_players_to_draft_history from_file from_nba_api with
  | Returns written =>
      add_missing_players_to_draft_history written from_nba_api
  | Raises e => Raises e
  end
  = add_missing_players_to_draft_history from_file from_nba_api.
Proof.
  destruct (add_missing_players_to_draft_history from_file from_nba_api)
    as [written|e] eqn:Hrun; [|reflexivity].
  pose proof (add_missing_returns _ _ _ Hrun) as (Hfile & added & _ & Hwritten).
  unfold add_missing_players_to_draft_history.
  destruct written as [|first others] eqn:Hshape.
  { exfalso. apply Hfile.
    apply (f_equal (@length Entrant)) in Hwritten.
    rewrite (sort_values_perm _), length_app in Hwritten. simpl in Hwritten.
    destruct from_file; [reflexivity|simpl in Hwritten; lia]. }
  rewrite <- Hshape in *. rewrite filter_none.
  - simpl. rewrite app_nil_r. f_equal. apply sort_values_id.
    rewrite Hwritten. apply sort_values_sorted.
  - intros row Hin.
    rewrite (nothing_new_after from_file from_nba_api written row Hrun Hin).
    discriminate.
Qed.

Example reconcile_twice :
  add_missing_players_to_draft_history
    [{| PLAYER_NAME := "P1"; PROBALLERS_ID := Some 11;
        SEASON := 2024; OVERALL_PICK := 1 |};
     {| PLAYER_NAME := "P6"; PROBALLERS_ID := None;
        SEASON := 2024; OVERALL_PICK := 6 |}]
    [{| api_PLAYER_NAME := "P1"; api_SEASON := "2024"; api_OVERALL_PICK := 1 |};
     {| api_PLAYER_NAME := "P6"; api_SEASON := "2024"; api_OVERALL_PICK := 6 |}]
  = Returns
      [{| PLAYER_NAME := "P1"; PROBALLERS_ID := Some 11;
          SEASON := 2024; OVERALL_PICK := 1 |};
       {| PLAYER_NAME := "P6"; PROBALLERS_ID := None;
          SEASON := 2024; OVERALL_PICK := 6 |}].
Proof. reflexivity. Qed.

(** The scenario of a new pick: the file has the picks 1 and 2 of 2024 and
    the fetched frame has them and the pick 6; the pick 6 is added. *)
Example reconcile_pick_6 :
  let player pick id :=
    {| PLAYER_NAME := "P"; PROBALLERS_ID := id; SEASON := 2024;
       OVERALL_PICK := pick |} in
  let fetched pick :=
    {| api_PLAYER_NAME := "P"; api_SEASON := "2024"; api_OVERALL_PICK := pick |} in
  add_missing_players_to_draft_history
    [player 1 (Some 11); player 2 (Some 12)]
    [fetched 1; fetched 2; fetched 6]
  = Returns [player 1 (Some 11); player 2 (Some 12); player 6 None].
Proof. vm_compute. reflexivity. Qed.

(** The pick is looked for in the whole file, not in the year of the row:
    a first pick of 2025 is not new when the file has a first pick of 2024. *)
Example pick_test_is_global :
  is_new_draft_player
    [{| PLAYER_NAME := "P"; PROBALLERS_ID := None; SEASON := 2024;
        OVERALL_PICK := 1 |}]
    {| api_PLAYER_NAME := "Q"; api_SEASON := "2025"; api_OVERALL_PICK := 1 |}
  = false.
Proof. reflexivity. Qed.

End RegistryFacts.

(** ** The per-year update of the career paths *)

Section ScrapeFacts.
Import Registry Scrape.

Variable proballers : Z -> page.

Lemma career_paths_print lines st :
  career_paths (print lines st) = career_paths st.
Proof. reflexivity. Qed.

(** A registry that has a draft year holds a record. *)
Lemma known_year_registry (df_draft_history : list Entrant) year :
  isin year (map SEASON df_draft_history) = true ->
  bool_decide (df_draft_history = []) = false.
Proof.
  intros Hyear. apply bool_decide_eq_false. intros ->.
  apply isin_true in Hyear. now apply elem_of_nil in Hyear.
Qed.

(** A list of years that are all in the registry is worked through before
    the rest of the request is looked at. *)
Lemma scrape_years_app df_draft_history years rest st :
  Forall (fun year => year ∈ map SEASON df_draft_history) years ->
  scrape_career_paths proballers df_draft_history (years ++ rest) st
  = match scrape_career_paths proballers df_draft_history years st with
    | (Returns _, st') => scrape_career_paths proballers df_draft_history rest st'
    | (Raises e, st') => (Raises e, st')
    end.
Proof.
  unfold scrape_career_paths. intros Hknown. revert st.
  induction Hknown as [|year years Hyear Hyears IH]; intros st.
  - reflexivity.
  - cbn [app scrape_years]. apply isin_true in Hyear.
    rewrite (known_year_registry _ _ Hyear), Hyear.
    cbn [negb].
    destruct (scrape_players proballers year _) as [[dfs|e] lines];
      [|reflexivity].
    destruct (pd_concat dfs) as [frame|e]; [|reflexivity].
    apply IH.
Qed.

(** The update writes no file of a year that is not requested. *)
Lemma scrape_years_other_files df_draft_history years st year :
  year ∉ years ->
  career_paths (scrape_career_paths proballers df_draft_history years st).2 !! year
  = career_paths st !! year.
Proof.
  unfold scrape_career_paths. revert st.
  induction years as [|y years IH]; intros st Hnot; [reflexivity|].
  apply not_elem_of_cons in Hnot as [Hne Hnot].
  cbn [scrape_years].
  destruct (bool_decide (df_draft_history = [])); [reflexivity|].
  destruct (negb (isin y (map SEASON df_draft_history))); [reflexivity|].
  destruct (scrape_players proballers y _) as [[dfs|e] lines];
    [|reflexivity].
  destruct (pd_concat dfs) as [frame|e]; [|reflexivity].
  rewrite IH by assumption. cbn. now rewrite lookup_insert_ne.
Qed.

Lemma scrape_players_without_tables draft_year players :
  Forall (fun player => proballers player.2 = NoSection
                        \/ proballers player.2 = NoTable) players ->
  exists lines,
    scrape_players proballers draft_year players = (Returns [], lines).
Proof.
  induction 1 as [|[row id] players Hpage Hrest [lines IH]]; simpl.
  - now eexists.
  - simpl in Hpage. destruct Hpage as [-> | ->]; rewrite IH; now eexists.
Qed.

(** C2 (as amended).  The registry holds a record, and [unknown] is the
    first requested year that it does not have.  When the update of the
    years before [unknown] returns, the whole update prints the message for
    [unknown] and returns at that point, with the files as the years before
    it left them: no year after [unknown] is looked at.  When the update of
    a year before [unknown] raises, the whole update ends with that
    exception and [unknown] is not reached.  In both cases the file of
    every year that is not among the years before [unknown] is left as it
    was. *)
Theorem C2_unknown_year_ends_the_update
    df_draft_history (years_before : list Z) unknown (years_after : list Z) st :
  df_draft_history <> [] ->
  Forall (fun year => year ∈ map SEASON df_draft_history) years_before ->
  unknown ∉ map SEASON df_draft_history ->
  (forall st',
     scrape_career_paths proballers df_draft_history years_before st
     = (Returns tt, st') ->
     scrape_career_paths proballers df_draft_history
       (years_before ++ unknown :: years_after) st
     = (Returns tt, print [NoDataForDraftYear unknown] st')
     /\ career_paths (print [NoDataForDraftYear unknown] st') = career_paths st'
     /\ console (print [NoDataForDraftYear unknown] st')
        = console st' ++ [NoDataForDraftYear unknown])
  /\ (forall e st',
        scrape_career_paths proballers df_draft_history years_before st
        = (Raises e, st') ->
        scrape_career_paths proballers df_draft_history
          (years_before ++ unknown :: years_after) st
        = (Raises e, st'))
  /\ (forall year,
        year ∉ years_before ->
        career_paths
          (scrape_career_paths proballers df_draft_history
             (years_before ++ unknown :: years_after) st).2 !! year
        = career_paths st !! year).
Proof.
  intros Hrecords Hknown Hunknown.
  assert (Heq : scrape_career_paths proballers df_draft_history (years_before ++ unknown :: years_after) st
          = match scrape_career_paths proballers df_draft_history years_before st with
            | (Returns _, st') => (Returns tt, print [NoDataForDraftYear unknown] st')
            | (Raises e, st') => (Raises e, st')
            end).
  { rewrite scrape_years_app by assumption.
    destruct (scrape_career_paths proballers df_draft_history years_before st) as [[[]|e] st'];
      [|reflexivity].
    unfold scrape_career_paths. cbn [scrape_years].
    rewrite bool_decide_eq_false_2 by assumption.
    apply isin_false in Hunknown. now rewrite Hunknown. }
  split; [|split].
  - intros st' Hbefore. rewrite Heq, Hbefore. now repeat split.
  - intros e st' Hbefore. now rewrite Heq, Hbefore.
  - intros year Hyear. rewrite Heq.
    rewrite <- (scrape_years_other_files df_draft_history years_before st year Hyear).
    now destruct (scrape_career_paths proballers df_draft_history years_before st) as [[[]|e] st'].
Qed.

(** C10.  When the registry has the requested year and no selected player
    of that year has a regular season table, the update of the year raises
    the ValueError of [pd.concat] on an empty list: no file is written, and
    the years after it are not reached. *)
Theorem C10_year_without_rows_raises df_draft_history draft_year rest st :
  draft_year ∈ map SEASON df_draft_history ->
  Forall (fun player => proballers player.2 = NoSection
                        \/ proballers player.2 = NoTable)
         (players_to_update df_draft_history draft_year) ->
  exists lines,
    scrape_career_paths proballers df_draft_history (draft_year :: rest) st
    = (Raises ValueError_no_objects_to_concatenate, print lines st)
    /\ career_paths (print lines st) = career_paths st.
Proof.
  intros Hyear Hpages.
  destruct (scrape_players_without_tables draft_year _ Hpages) as [lines Hplayers].
  exists ([UpdatingCareerPaths (length (players_to_update df_draft_history draft_year))]
          ++ lines ++ [BlankLine]).
  split; [|reflexivity].
  unfold scrape_career_paths. cbn [scrape_years].
  apply isin_true in Hyear.
  rewrite (known_year_registry _ _ Hyear), Hyear. cbn [negb]. rewrite Hplayers.
  cbn [pd_concat]. unfold print. cbn. now rewrite <- app_assoc.
Qed.

End ScrapeFacts.

Section ScrapeExamples.
Import Registry Scrape Samples.

(** C2 (counterexample).  The request [2019; 2020] on a registry that has
    2020 but not 2019: 2019 is reported, and the update of 2020, which the
    same request without 2019 performs, is not performed. *)
Lemma C2_later_year_is_not_updated :
  (2019 ∉ map SEASON registry_2020)
  /\ (2020 ∈ map SEASON registry_2020)
  /\ (scrape_career_paths site_with_table registry_2020 [2019; 2020] fresh_store).1
     = Returns tt
  /\ console
       (scrape_career_paths site_with_table registry_2020 [2019; 2020] fresh_store).2
     = [NoDataForDraftYear 2019]
  /\ career_paths
       (scrape_career_paths site_with_table registry_2020 [2019; 2020] fresh_store).2
       !! 2020 = None
  /\ career_paths
       (scrape_career_paths site_with_table registry_2020 [2020] fresh_store).2
       !! 2020
     = Some [{| Player_Name := "A"; Proballers_ID := 7; Season := "20-21";
                Team := "Team"; League := "FRA-1"; Draft_Year := 2020 |}].
Proof.
  split; [|split; [|split; [|split; [|split]]]].
  - intros H. apply list_elem_of_In in H. simpl in H. intuition discriminate.
  - apply list_elem_of_In. simpl. now left.
  - reflexivity.
  - reflexivity.
  - reflexivity.
  - reflexivity.
Qed.

Lemma C2_unknown_year_ends_the_update_witness :
  scrape_career_paths site_with_table registry_2020 ([2020] ++ 2019 :: [2020])
    fresh_store
  = (Returns tt,
     print [NoDataForDraftYear 2019]
       (scrape_career_paths site_with_table registry_2020 [2020] fresh_store).2).
Proof.
  refine (proj1 (proj1 (C2_unknown_year_ends_the_update site_with_table
                          registry_2020 [2020] 2019 [2020] fresh_store _ _ _)
                   _ _)).
  - discriminate.
  - repeat constructor.
  - intros H. apply list_elem_of_In in H. simpl in H. intuition discriminate.
  - reflexivity.
Defined.

Lemma C10_year_without_rows_raises_witness :
  exists lines,
    scrape_career_paths site_without_section registry_2020 [2020; 2021] fresh_store
    = (Raises ValueError_no_objects_to_concatenate, print lines fresh_store)
    /\ career_paths (print lines fresh_store) = career_paths fresh_store.
Proof.
  apply (C10_year_without_rows_raises site_without_section registry_2020
           2020 [2021] fresh_store).
  - apply list_elem_of_In. simpl. now left.
  - repeat constructor.
Defined.

End ScrapeExamples.

(** ** The country resolver *)

Section CountriesFacts.
Import Countries.

Variable get_alpha_2 : string -> option MappingEntry.
Variable get_alpha_3 : string -> option MappingEntry.

Lemma keep_first_elem `{EqDecision A} (seen rows : list A) x :
  x ∈ keep_first seen rows <-> x ∈ rows /\ x ∉ seen.
Proof.
  revert seen. induction rows as [|row rest IH]; intros seen; simpl.
  - rewrite elem_of_nil. tauto.
  - destruct (bool_decide (row ∈ seen)) eqn:E.
    + apply bool_decide_eq_true in E. rewrite IH, elem_of_cons.
      split; [tauto|]. intros [[->|Hx] Hseen]; tauto.
    + apply bool_decide_eq_false in E.
      rewrite !elem_of_cons, IH, not_elem_of_cons.
      destruct (decide (x = row)) as [->|Hne]; tauto.
Qed.

Lemma keep_first_NoDup `{EqDecision A} (seen rows : list A) :
  NoDup (keep_first seen rows).
Proof.
  revert seen. induction rows as [|row rest IH]; intros seen; simpl.
  - constructor.
  - destruct (bool_decide (row ∈ seen)); [apply IH|].
    constructor; [|apply IH].
    rewrite keep_first_elem, not_elem_of_cons. tauto.
Qed.

Lemma drop_duplicates_elem `{EqDecision A} (rows : list A) x :
  x ∈ drop_duplicates rows <-> x ∈ rows.
Proof.
  unfold drop_duplicates. rewrite keep_first_elem, elem_of_nil. tauto.
Qed.

Lemma drop_duplicates_NoDup `{EqDecision A} (rows : list A) :
  NoDup (drop_duplicates rows).
Proof. apply keep_first_NoDup. Qed.

(** A prefix is looked up only when the loaded mappings do not have it. *)
Lemma unmapped_prefixes_not_cached country_mappings df prefix :
  prefix ∈ unmapped_prefixes (map (map_prefix country_mappings) df) ->
  country_mappings !! prefix = None.
Proof.
  unfold unmapped_prefixes. rewrite drop_duplicates_elem.
  intros Hin. apply list_elem_of_fmap in Hin as (row & -> & Hrow).
  apply list_elem_of_filter in Hrow as [Hnone Hrow].
  apply list_elem_of_fmap in Hrow as (row0 & -> & _).
  simpl in *. now destruct (country_mappings !! League_Prefix row0).
Qed.

(** The loop only adds entries at the prefixes it is given. *)
Lemma resolve_unmapped_subseteq prefixes df loaded country_mappings :
  loaded ⊆ country_mappings ->
  (forall prefix, prefix ∈ prefixes -> loaded !! prefix = None) ->
  loaded ⊆ (resolve_unmapped get_alpha_2 get_alpha_3
              prefixes df country_mappings).1.2.
Proof.
  revert df country_mappings.
  induction prefixes as [|prefix rest IH]; intros df country_mappings Hsub Hnew;
    [exact Hsub|].
  cbn [resolve_unmapped].
  assert (Hrest : forall q, q ∈ rest -> loaded !! q = None)
    by (intros q Hq; apply Hnew; now right).
  destruct (lookup_country _ _ prefix) as [[found|]|].
  - apply IH; [|exact Hrest].
    apply insert_subseteq_r; [|exact Hsub]. apply Hnew. now left.
  - specialize (IH df country_mappings Hsub Hrest).
    now destruct (resolve_unmapped _ _ rest df country_mappings) as [[df' m'] lines].
  - now apply IH.
Qed.

Lemma set_country_map_prefix prefix found country_mappings df :
  set_country prefix found (map (map_prefix country_mappings) df)
  = map (map_prefix (<[prefix := found]> country_mappings)) df.
Proof.
  unfold set_country. rewrite map_map. apply map_ext. intros row.
  unfold map_prefix. cbn [League_Prefix placement].
  destruct (bool_decide (League_Prefix row = prefix)) eqn:E.
  - apply bool_decide_eq_true in E. subst prefix.
    now rewrite lookup_insert_eq.
  - apply bool_decide_eq_false in E.
    rewrite lookup_insert_ne by congruence. reflexivity.
Qed.

(** Through the loop the country columns of every row are what the
    mappings hold for the prefix of the row. *)
Lemma resolve_unmapped_rows prefixes df country_mappings :
  (resolve_unmapped get_alpha_2 get_alpha_3 prefixes
     (map (map_prefix country_mappings) df) country_mappings).1.1
  = map (map_prefix
           (resolve_unmapped get_alpha_2 get_alpha_3 prefixes
              (map (map_prefix country_mappings) df) country_mappings).1.2) df.
Proof.
  revert country_mappings.
  induction prefixes as [|prefix rest IH]; intros country_mappings;
    [reflexivity|].
  cbn [resolve_unmapped].
  destruct (lookup_country _ _ prefix) as [[found|]|].
  - rewrite set_country_map_prefix. apply IH.
  - specialize (IH country_mappings).
    now destruct (resolve_unmapped _ _ rest _ country_mappings) as [[df' m'] lines].
  - apply IH.
Qed.

Lemma map_countries_rows df country_mappings :
  (map_countries_to_alpha3 get_alpha_2 get_alpha_3 df country_mappings).1.1
  = map (map_prefix
           (map_countries_to_alpha3 get_alpha_2 get_alpha_3
              df country_mappings).1.2) df.
Proof.
  unfold map_countries_to_alpha3.
  pose proof (resolve_unmapped_rows
                (unmapped_prefixes (map (map_prefix country_mappings) df))
                df country_mappings) as H.
  now destruct (resolve_unmapped _ _ _ _ country_mappings) as [[df' m'] lines].
Qed.

Lemma map_countries_subseteq df country_mappings :
  country_mappings
  ⊆ (map_countries_to_alpha3 get_alpha_2 get_alpha_3 df country_mappings).1.2.
Proof.
  unfold map_countries_to_alpha3.
  pose proof (resolve_unmapped_subseteq
                (unmapped_prefixes (map (map_prefix country_mappings) df))
                (map (map_prefix country_mappings) df)
                country_mappings country_mappings) as H.
  destruct (resolve_unmapped _ _ _ _ country_mappings) as [[df' m'] lines].
  apply H; [reflexivity|].
  intros prefix. apply unmapped_prefixes_not_cached.
Qed.

(** C8.  A resolution pass only adds entries to the mappings: every entry
    loaded is in the mappings saved, with the same code and name; the rows
    of a prefix that was loaded get that entry's code and name; and a later
    pass over any frame keeps every entry of the mappings saved. *)
Theorem C8_mappings_only_grow
    (df : list Located) (country_mappings : gmap string MappingEntry) :
  country_mappings
  ⊆ (map_countries_to_alpha3 get_alpha_2 get_alpha_3 df country_mappings).1.2
  /\ (forall prefix entry,
        country_mappings !! prefix = Some entry ->
        (map_countries_to_alpha3 get_alpha_2 get_alpha_3
           df country_mappings).1.2 !! prefix = Some entry)
  /\ Forall2
       (fun row row' =>
          placement row' = placement row
          /\ League_Prefix row' = League_Prefix row
          /\ forall entry,
               country_mappings !! League_Prefix row = Some entry ->
               Country_Alpha3 row' = Some (ALPHA_3 entry)
               /\ Country_Name row' = Some (NAME entry))
       df
       (map_countries_to_alpha3 get_alpha_2 get_alpha_3 df country_mappings).1.1
  /\ (forall df_again prefix entry,
        (map_countries_to_alpha3 get_alpha_2 get_alpha_3
           df country_mappings).1.2 !! prefix = Some entry ->
        (map_countries_to_alpha3 get_alpha_2 get_alpha_3 df_again
           (map_countries_to_alpha3 get_alpha_2 get_alpha_3
              df country_mappings).1.2).1.2 !! prefix = Some entry).
Proof.
  pose proof (map_countries_subseteq df country_mappings) as Hsub.
  split; [exact Hsub|]. split; [|split].
  - intros prefix entry. revert prefix entry. now apply map_subseteq_spec.
  - rewrite map_countries_rows.
    apply Forall2_fmap_r, Forall_Forall2_diag, Forall_forall.
    intros row _. cbn. split; [reflexivity|]. split; [reflexivity|].
    intros entry Hentry.
    rewrite (proj1 (map_subseteq_spec _ _) Hsub _ _ Hentry). now split.
  - intros df_again prefix entry. revert prefix entry.
    apply map_subseteq_spec, map_countries_subseteq.
Qed.

End CountriesFacts.

(** ** The aggregator *)

Section AggregatorFacts.
Import Registry Countries Aggregator.

Variable get_alpha_2 : string -> option MappingEntry.
Variable get_alpha_3 : string -> option MappingEntry.

Lemma pd_concat_returns {A} (frames : list (list A)) frame :
  pd_concat frames = Returns frame -> frame = concat frames.
Proof. destruct frames; simpl; congruence. Qed.

(** When [apply] returns, every row of the frame has its cell, which is
    what the normalizer returns for the row. *)
Lemma apply_years_returns current_year df rows lines :
  apply_years current_year df = (Returns rows, lines) ->
  Forall2 (fun row_joined row =>
             joined row = row_joined
             /\ (years_from_draft current_year row_joined).1
                = Returns (Years_From_Draft row)) df rows.
Proof.
  revert rows lines.
  induction df as [|row_joined rest IH]; intros rows lines; simpl.
  - intros [= <- _]. constructor.
  - destruct (years_from_draft current_year row_joined)
      as [[years|e] lines1] eqn:Hyears; [|discriminate].
    destruct (apply_years current_year rest) as [[rows'|e] lines2];
      [|discriminate].
    intros [= <- _]. constructor; [|now eapply IH].
    split; [reflexivity|]. now rewrite Hyears.
Qed.

(** C7 (as amended).  When the aggregator returns, its frame has no two
    equal rows and only rows with years from draft in (-10, 30]; and for
    every placement of the input, however many times the input has it,
    every row the join derives from it is in the frame (once) exactly when
    its years from draft are in (-10, 30]. *)
Theorem C7_duplicates_collapse_after_outlier_filter
    current_year (batches : list (list Placement))
    (country_mappings : gmap string MappingEntry)
    (df_draft_history : list Entrant) (out : list CareerPath) :
  (create_dataframe_of_career_paths get_alpha_2 get_alpha_3
     current_year batches country_mappings df_draft_history).1.1 = Returns out ->
  NoDup out
  /\ (forall row, row ∈ out -> is_plausible row = true)
  /\ (forall row_placement row_joined,
        row_placement ∈ concat batches ->
        row_joined ∈ merge_left df_draft_history
          (map_prefix
             (create_dataframe_of_career_paths get_alpha_2 get_alpha_3
                current_year batches country_mappings df_draft_history).1.2
             (with_prefix row_placement)) ->
        exists years,
          (years_from_draft current_year row_joined).1 = Returns years
          /\ (is_plausible {| joined := row_joined; Years_From_Draft := years |}
              = true
              <-> {| joined := row_joined; Years_From_Draft := years |} ∈ out)).
Proof.
  unfold create_dataframe_of_career_paths.
  destruct (pd_concat batches) as [df_career_paths|e] eqn:Hconcat;
    [|discriminate].
  apply pd_concat_returns in Hconcat. subst df_career_paths.
  destruct (bool_decide (concat batches = [])); [discriminate|].
  pose proof (map_countries_rows get_alpha_2 get_alpha_3
                (map with_prefix (concat batches)) country_mappings) as Hrows.
  destruct (map_countries_to_alpha3 _ _ _ country_mappings)
    as [[df mappings'] lines].
  cbn in Hrows. subst df.
  destruct (bool_decide (df_draft_history = [])); [discriminate|].
  destruct (apply_years current_year _) as [[rows|e] lines'] eqn:Happly;
    [|discriminate].
  cbn. intros [= <-].
  apply apply_years_returns in Happly.
  split; [apply drop_duplicates_NoDup|]. split.
  - intros row Hrow. rewrite drop_duplicates_elem, list_elem_of_filter in Hrow.
    tauto.
  - intros row_placement row_joined Hplacement Hjoined.
    assert (Hin : row_joined
                  ∈ flat_map (merge_left df_draft_history)
                      (map (map_prefix mappings')
                         (map with_prefix (concat batches)))).
    { apply list_elem_of_In, in_flat_map.
      exists (map_prefix mappings' (with_prefix row_placement)).
      split; [|now apply list_elem_of_In].
      apply list_elem_of_In. do 2 apply list_elem_of_fmap_2. exact Hplacement. }
    apply list_elem_of_lookup in Hin as [i Hi].
    destruct (Forall2_lookup_l _ _ _ _ _ Happly Hi) as (row & Hrow & Hj & Hyears).
    exists (Years_From_Draft row). split; [exact Hyears|].
    assert (Hsame : {| joined := row_joined;
                       Years_From_Draft := Years_From_Draft row |} = row)
      by (destruct row; cbn in *; congruence).
    rewrite Hsame, drop_duplicates_elem, list_elem_of_filter.
    split; [|tauto]. intros Hplausible. split; [exact Hplausible|].
    apply list_elem_of_lookup. now exists i.
Qed.

End AggregatorFacts.

Section AggregatorExamples.
Import Registry Countries Aggregator Samples.

Example league_ARG_1_empty_mappings :
  (map_countries_to_alpha3 code_list_alpha_2 code_list_alpha_3
     [with_prefix {| Player_Name := "B"; Proballers_ID := 8; Season := "20-21";
                     Team := "Team"; League := "ARG-1" |}] ∅).1.2 !! "ARG"%string
  = Some {| ALPHA_3 := "ARG"; NAME := "Argentina" |}.
Proof. reflexivity. Qed.

Example two_equal_placements_one_row :
  (create_dataframe_of_career_paths code_list_alpha_2 code_list_alpha_3 2026
     [[placement_20_21; placement_20_21]] ∅ registry_2020).1.1
  = Returns [career_path_20_21].
Proof. reflexivity. Qed.

(** C7 (counterexample).  Two equal placements of the season '60-61' of a
    player drafted in 2020: the years from draft are 40, the outlier filter
    removes both rows, and the frame returned has no row. *)
Lemma C7_equal_outlier_placements_leave_no_row :
  placement_60_61 ∈ [placement_60_61; placement_60_61]
  /\ Timeline.calculate_years_since_draft 2026 "60-61" 2020
     = (Returns 40, [PossibleIncorrectData "60-61" (Some 2020)])
  /\ (create_dataframe_of_career_paths code_list_alpha_2 code_list_alpha_3 2026
        [[placement_60_61; placement_60_61]] ∅ registry_2020).1.1
     = Returns [].
Proof.
  split; [now left|]. split; reflexivity.
Qed.

Lemma C7_duplicates_collapse_after_outlier_filter_witness :
  NoDup [career_path_20_21]
  /\ (forall row, row ∈ [career_path_20_21] -> is_plausible row = true).
Proof.
  pose proof (C7_duplicates_collapse_after_outlier_filter
                code_list_alpha_2 code_list_alpha_3 2026
                [[placement_20_21; placement_20_21]] ∅ registry_2020
                [career_path_20_21] eq_refl) as (Hnodup & Hplausible & _).
  exact (conj Hnodup Hplausible).
Defined.

End AggregatorExamples.

(** * Further properties of the code *)

(** ** Texts and the timeline *)

Section MoreTimelineFacts.
Import Timeline.

Lemma split_dash_first_no_dash text : has_dash (split_dash_first text) = false.
Proof.
  induction text as [|c rest IH]; simpl; [reflexivity|].
  destruct (Ascii.eqb c "-") eqn:E; simpl; [reflexivity|]. now rewrite E.
Qed.

(** The league prefix and the year part of a label: the text before the
    first dash is cut off exactly, and a text without a dash is kept
    whole. *)
Theorem split_dash_first_cuts_at_first_dash (prefix rest : string) :
  has_dash prefix = false ->
  split_dash_first (prefix ++ String "-" rest) = prefix
  /\ split_dash_first prefix = prefix.
Proof.
  induction prefix as [|c prefix IH]; simpl; intros Hdash.
  - now split.
  - apply orb_false_iff in Hdash as [Hc Hdash]. rewrite Hc.
    destruct (IH Hdash) as [-> ->]. now split.
Qed.

Lemma split_dash_first_cuts_at_first_dash_witness :
  split_dash_first "FRA-1" = "FRA"%string
  /\ split_dash_first "FRA" = "FRA"%string.
Proof.
  apply (split_dash_first_cuts_at_first_dash "FRA" "1"). reflexivity.
Defined.

Lemma digit_value_bounds c d : digit_value c = Some d -> 0 <= d <= 9.
Proof.
  unfold digit_value.
  destruct (_ && _) eqn:E; [|discriminate]. intros [= <-].
  apply andb_true_iff in E as [H1 H2]. lia.
Qed.

Lemma int_of_digits_bounds text after_digit acc n :
  0 <= acc -> int_of_digits after_digit acc text = Some n ->
  0 <= n < (acc + 1) * 10 ^ Z.of_nat (String.length text).
Proof.
  revert after_digit acc.
  induction text as [|c rest IH]; intros after_digit acc Hacc;
    simpl String.length.
  - simpl. destruct after_digit; [|discriminate]. intros [= <-]. lia.
  - cbn [int_of_digits].
    assert (Hpow : 0 < 10 ^ Z.of_nat (String.length rest))
      by (apply Z.pow_pos_nonneg; lia).
    rewrite Nat2Z.inj_succ, Z.pow_succ_r by lia.
    destruct (Ascii.eqb c "_").
    + destruct after_digit; [|discriminate]. intros Hn.
      apply IH in Hn; [|lia]. nia.
    + destruct (digit_value c) as [d|] eqn:Hd; [|discriminate].
      apply digit_value_bounds in Hd. intros Hn.
      apply IH in Hn; [|lia]. nia.
Qed.

Lemma lstrip_shorter text :
  (String.length (lstrip text) <= String.length text)%nat.
Proof.
  induction text as [|c rest IH]; simpl; [lia|].
  destruct (is_space c); simpl; lia.
Qed.

Lemma rstrip_shorter text :
  (String.length (rstrip text) <= String.length text)%nat.
Proof.
  induction text as [|c rest IH]; simpl; [lia|].
  destruct (rstrip rest); [destruct (is_space c)|]; simpl in *; lia.
Qed.

Lemma lstrip_no_dash text : has_dash text = false -> has_dash (lstrip text) = false.
Proof.
  induction text as [|c rest IH]; simpl; [reflexivity|].
  intros Hdash. destruct (is_space c); [|exact Hdash].
  apply IH. now apply orb_false_iff in Hdash as [_ Hrest].
Qed.

Lemma rstrip_no_dash text : has_dash text = false -> has_dash (rstrip text) = false.
Proof.
  induction text as [|c rest IH]; simpl; [reflexivity|].
  intros Hdash. apply orb_false_iff in Hdash as [Hc Hrest].
  specialize (IH Hrest).
  destruct (rstrip rest); [destruct (is_space c)|]; simpl in *;
    rewrite ?Hc; auto.
Qed.

(** The year read from a label is not negative and has at most as many
    digits as the text before the dash: a two-character year part gives a
    year from 0 to 99. *)
Theorem start_year_bounds season start_yy :
  py_int (split_dash_first season) = Returns start_yy ->
  0 <= start_yy < 10 ^ Z.of_nat (String.length (split_dash_first season))
  /\ (String.length (split_dash_first season) = 2%nat -> 0 <= start_yy <= 99).
Proof.
  unfold py_int. cbv zeta. intros H.
  pose proof (rstrip_no_dash _ (lstrip_no_dash _ (split_dash_first_no_dash season)))
    as Hdash.
  pose proof (rstrip_shorter (lstrip (split_dash_first season))) as Hr.
  pose proof (lstrip_shorter (split_dash_first season)) as Hl.
  assert (Hbound : 0 <= start_yy
                   < 10 ^ Z.of_nat (String.length
                                      (rstrip (lstrip (split_dash_first season))))).
  { destruct (rstrip (lstrip (split_dash_first season))) as [|c rest];
      [discriminate|].
    simpl in Hdash. apply orb_false_iff in Hdash as [Hc _]. rewrite Hc in H.
    destruct (Ascii.eqb c "+").
    - destruct (int_of_digits false 0 rest) as [n|] eqn:Hn; [|discriminate].
      injection H as <-. apply int_of_digits_bounds in Hn; [|lia].
      simpl String.length. rewrite Nat2Z.inj_succ, Z.pow_succ_r by lia.
      assert (0 < 10 ^ Z.of_nat (String.length rest))
        by (apply Z.pow_pos_nonneg; lia).
      lia.
    - destruct (int_of_digits false 0 (String c rest)) as [n|] eqn:Hn;
        [|discriminate].
      injection H as <-. apply int_of_digits_bounds in Hn; [|lia]. lia. }
  assert (Hmono : 10 ^ Z.of_nat (String.length
                                   (rstrip (lstrip (split_dash_first season))))
                  <= 10 ^ Z.of_nat (String.length (split_dash_first season)))
    by (apply Z.pow_le_mono_r; lia).
  split; [lia|]. intros Hlen. rewrite Hlen in Hmono. simpl in Hmono. lia.
Qed.

Lemma start_year_bounds_witness : 0 <= 99 < 10 ^ Z.of_nat 2.
Proof.
  apply (start_year_bounds "99-00" 99). reflexivity.
Defined.

Lemma accepted_century_some offsets current_century start_yy draft_year a :
  accepted_century offsets current_century start_yy draft_year = Some a ->
  a ∈ offsets /\ -30 < current_century + a + start_yy - draft_year < 30.
Proof.
  induction offsets as [|b rest IH]; simpl; [discriminate|].
  destruct (accepts _ _) eqn:E.
  - intros [= <-]. apply accepts_iff in E. split; [left|lia].
  - intros H. destruct (IH H). split; [now right|assumption].
Qed.

Lemma accepted_century_none offsets current_century start_yy draft_year :
  accepted_century offsets current_century start_yy draft_year = None ->
  forall a, a ∈ offsets ->
    ~ (-30 < current_century + a + start_yy - draft_year < 30).
Proof.
  induction offsets as [|b rest IH]; simpl; intros Hnone a Ha.
  - now apply elem_of_nil in Ha.
  - destruct (accepts _ _) eqn:E; [discriminate|].
    apply accepts_false_iff in E.
    apply elem_of_cons in Ha as [->|Ha]; [lia|now apply IH].
Qed.

(** What the function returns for a label it can read.  Either one of the
    three candidates is less than 30 years from the draft year, on either
    side: its offset is returned and nothing is printed.  Or no candidate
    is: the warning is printed and the offset of the current-century
    candidate, which is then 30 years or more away, is returned. *)
Theorem years_since_draft_cases current_year season draft_year start_yy :
  py_int (split_dash_first season) = Returns start_yy ->
  (exists a,
     a ∈ century_offsets
     /\ -30 < century_of current_year + a + start_yy - draft_year < 30
     /\ calculate_years_since_draft current_year season draft_year
        = (Returns (century_of current_year + a + start_yy - draft_year), []))
  \/ ((forall a, a ∈ century_offsets ->
         ~ (-30 < century_of current_year + a + start_yy - draft_year < 30))
      /\ 30 <= Z.abs (century_of current_year + start_yy - draft_year)
      /\ calculate_years_since_draft current_year season draft_year
         = (Returns (century_of current_year + start_yy - draft_year),
            [PossibleIncorrectData season (Some draft_year)])).
Proof.
  intros Hyy.
  unfold calculate_years_since_draft, years_since_draft_in_order.
  rewrite Hyy. cbv zeta.
  destruct (accepted_century _ _ _ _) as [a|] eqn:Hloop.
  - left. exists a. apply accepted_century_some in Hloop as [Ha Hwin].
    now repeat split.
  - right. pose proof (accepted_century_none _ _ _ _ Hloop) as Hnone.
    split; [exact Hnone|]. split; [|reflexivity].
    specialize (Hnone 0). unfold century_offsets in Hnone.
    assert (H0 : (0:Z) ∈ [-100; 0; 100]) by set_solver.
    specialize (Hnone H0). lia.
Qed.

Lemma years_since_draft_cases_witness :
  (exists a,
     a ∈ century_offsets
     /\ -30 < century_of 2026 + a + 99 - 1998 < 30
     /\ calculate_years_since_draft 2026 "99-00" 1998
        = (Returns (century_of 2026 + a + 99 - 1998), []))
  \/ ((forall a, a ∈ century_offsets ->
         ~ (-30 < century_of 2026 + a + 99 - 1998 < 30))
      /\ 30 <= Z.abs (century_of 2026 + 99 - 1998)
      /\ calculate_years_since_draft 2026 "99-00" 1998
         = (Returns (century_of 2026 + 99 - 1998),
            [PossibleIncorrectData "99-00" (Some 1998)])).
Proof.
  apply (years_since_draft_cases 2026 "99-00" 1998 99). reflexivity.
Defined.

End MoreTimelineFacts.

(** ** The registry: order, keys, and the first build *)

Section MoreRegistryFacts.
Import Registry Build.

Lemma stands_before_trans a b c :
  stands_before a b -> stands_before b c -> stands_before a c.
Proof.
  unfold stands_before, before.
  rewrite !orb_true_iff, !andb_true_iff, !Z.ltb_lt, !Z.eqb_eq, !Z.leb_le. lia.
Qed.

Lemma stands_before_spec a b :
  stands_before a b
  <-> SEASON b < SEASON a
      \/ (SEASON a = SEASON b /\ OVERALL_PICK a <= OVERALL_PICK b).
Proof.
  unfold stands_before, before.
  rewrite orb_true_iff, andb_true_iff, Z.ltb_lt, Z.eqb_eq, Z.leb_le. reflexivity.
Qed.

Lemma StronglySorted_lookup {A} (R : A -> A -> Prop) (l : list A) :
  StronglySorted R l ->
  forall (i j : nat) a b,
    (i < j)%nat -> l !! i = Some a -> l !! j = Some b -> R a b.
Proof.
  induction 1 as [|x l Hl IH Hx]; intros i j a b Hij Hi Hj.
  - discriminate.
  - destruct j as [|j]; [lia|]. destruct i as [|i]; simpl in *.
    + injection Hi as <-. rewrite Forall_forall in Hx. apply Hx.
      apply list_elem_of_lookup. now exists j.
    + apply (IH i j); [lia|assumption..].
Qed.

(** The records written are in the order of the file: a later draft year
    stands before an earlier one, and within a draft year a lower pick
    stands before a higher one. *)
Theorem reconciled_registry_is_ordered
    (from_file : list Entrant) (from_nba_api : list DraftRow)
    (written : list Entrant) (i j : nat) (a b : Entrant) :
  add_missing_players_to_draft_history from_file from_nba_api = Returns written ->
  (i < j)%nat ->
  written !! i = Some a ->
  written !! j = Some b ->
  SEASON b < SEASON a
  \/ (SEASON a = SEASON b /\ OVERALL_PICK a <= OVERALL_PICK b).
Proof.
  intros Hrun Hij Hi Hj. apply stands_before_spec.
  eapply (StronglySorted_lookup stands_before); [|exact Hij|exact Hi|exact Hj].
  apply Sorted_StronglySorted.
  - intros x y z. apply stands_before_trans.
  - apply add_missing_returns in Hrun as (_ & added & _ & ->).
    apply sort_values_sorted.
Qed.

Lemma reconciled_registry_is_ordered_witness :
  SEASON {| PLAYER_NAME := "Y"; PROBALLERS_ID := Some 3; SEASON := 2023;
            OVERALL_PICK := 2 |}
  < SEASON {| PLAYER_NAME := "X"; PROBALLERS_ID := None; SEASON := 2024;
              OVERALL_PICK := 70 |}
  \/ (SEASON {| PLAYER_NAME := "X"; PROBALLERS_ID := None; SEASON := 2024;
                OVERALL_PICK := 70 |}
      = SEASON {| PLAYER_NAME := "Y"; PROBALLERS_ID := Some 3; SEASON := 2023;
                  OVERALL_PICK := 2 |}
      /\ OVERALL_PICK {| PLAYER_NAME := "X"; PROBALLERS_ID := None;
                         SEASON := 2024; OVERALL_PICK := 70 |}
         <= OVERALL_PICK {| PLAYER_NAME := "Y"; PROBALLERS_ID := Some 3;
                            SEASON := 2023; OVERALL_PICK := 2 |}).
Proof.
  apply (reconciled_registry_is_ordered
           [{| PLAYER_NAME := "Y"; PROBALLERS_ID := Some 3; SEASON := 2023;
               OVERALL_PICK := 2 |}]
           [{| api_PLAYER_NAME := "X"; api_SEASON := "2024";
               api_OVERALL_PICK := 70 |}]
           [{| PLAYER_NAME := "X"; PROBALLERS_ID := None; SEASON := 2024;
               OVERALL_PICK := 70 |};
            {| PLAYER_NAME := "Y"; PROBALLERS_ID := Some 3; SEASON := 2023;
               OVERALL_PICK := 2 |}]
           0%nat 1%nat); [reflexivity|lia|reflexivity|reflexivity].
Defined.

Lemma NoDup_map_filter {A B} (f : A -> B) (P : A -> Prop)
    `{forall x, Decision (P x)} (l : list A) :
  NoDup (map f l) -> NoDup (map f (filter P l)).
Proof.
  induction l as [|x l IH]; simpl; intros Hnd; [constructor|].
  apply NoDup_cons in Hnd as [Hx Hnd].
  destruct (decide (P x)).
  - rewrite filter_cons_True by assumption. simpl. apply NoDup_cons.
    split; [|now apply IH].
    intros Hin. apply Hx.
    apply list_elem_of_fmap in Hin as (y & -> & Hy).
    apply list_elem_of_filter in Hy as [_ Hy].
    apply list_elem_of_fmap. now exists y.
  - rewrite filter_cons_False by assumption. now apply IH.
Qed.

(** The keys of the converted rows are the keys that the texts spell. *)
Lemma new_drafts_keys rows players :
  Forall2 (fun row player => new_draft row = Returns player) rows players ->
  map api_draft_key rows
  = map (fun key : Z * Z => (Returns key.1, key.2)) (map draft_key players).
Proof.
  induction 1 as [|row player rows players Hrow Hrest IH]; [reflexivity|].
  simpl. rewrite IH. f_equal.
  apply new_draft_returns in Hrow as (_ & _ & Hseason & Hpick).
  unfold api_draft_key, draft_key. cbn. now rewrite Hseason, Hpick.
Qed.

(** The key (draft year, overall pick) stays unique: when no two records
    of the file and no two fetched rows have the same key, no two records
    written have. *)
Theorem reconciled_registry_keeps_keys_unique
    (from_file : list Entrant) (from_nba_api : list DraftRow)
    (written : list Entrant) :
  add_missing_players_to_draft_history from_file from_nba_api = Returns written ->
  NoDup (map draft_key from_file) ->
  NoDup (map api_draft_key from_nba_api) ->
  NoDup (map draft_key written).
Proof.
  intros Hrun Hfile Hapi.
  apply add_missing_returns in Hrun as (_ & added & Hadded & ->).
  apply new_drafts_returns in Hadded.
  rewrite (sort_values_perm _), map_app.
  apply NoDup_app. split; [exact Hfile|]. split.
  - intros key Hkey Hnew.
    apply list_elem_of_fmap in Hkey as (player & -> & Hplayer).
    apply list_elem_of_fmap in Hnew as (other & Heq & Hother).
    apply list_elem_of_lookup in Hother as [i Hi].
    destruct (Forall2_lookup_r _ _ _ _ _ Hadded Hi) as (row & Hrow & Hconv).
    apply new_draft_returns in Hconv as (_ & _ & _ & Hpick).
    assert (Hin : row ∈ filter
                    (fun row => is_new_draft_player from_file row = true)
                    from_nba_api)
      by (apply list_elem_of_lookup; now exists i).
    apply list_elem_of_filter in Hin as [Hnewrow _].
    apply is_new_draft_player_spec in Hnewrow. apply Hnewrow.
    rewrite <- Hpick. injection Heq as _ Hp. rewrite <- Hp.
    apply list_elem_of_fmap. now exists player.
  - apply (NoDup_map_filter api_draft_key
             (fun row => is_new_draft_player from_file row = true)) in Hapi.
    rewrite (new_drafts_keys _ _ Hadded) in Hapi.
    now apply NoDup_fmap_1 in Hapi.
Qed.

Lemma reconciled_registry_keeps_keys_unique_witness :
  NoDup (map draft_key
           [{| PLAYER_NAME := "X"; PROBALLERS_ID := None; SEASON := 2024;
               OVERALL_PICK := 70 |};
            {| PLAYER_NAME := "A"; PROBALLERS_ID := Some 7; SEASON := 2020;
               OVERALL_PICK := 1 |}]).
Proof.
  apply (reconciled_registry_keeps_keys_unique Samples.registry_2020
           [{| api_PLAYER_NAME := "X"; api_SEASON := "2024";
               api_OVERALL_PICK := 70 |}]).
  - reflexivity.
  - repeat constructor. intros H. now apply elem_of_nil in H.
  - repeat constructor. intros H. now apply elem_of_nil in H.
Defined.

(** The year of a fetched row plays no part: when the pick number of
    every fetched row is somewhere in the file, whatever the draft years,
    the reconciliation of a file with records adds nothing.  It writes the
    sorted records of the file, and a file that is in order is written
    back unchanged. *)
Theorem known_picks_add_nothing
    (from_file : list Entrant) (from_nba_api : list DraftRow) :
  from_file <> [] ->
  (forall row, row ∈ from_nba_api ->
     api_OVERALL_PICK row ∈ map OVERALL_PICK from_file) ->
  add_missing_players_to_draft_history from_file from_nba_api
  = Returns (sort_values from_file)
  /\ (Sorted stands_before from_file ->
      add_missing_players_to_draft_history from_file from_nba_api
      = Returns from_file).
Proof.
  intros Hrecords Hknown.
  assert (Heq : add_missing_players_to_draft_history from_file from_nba_api
                = Returns (sort_values from_file)).
  { unfold add_missing_players_to_draft_history.
    destruct from_file as [|player others] eqn:Hshape; [congruence|].
    rewrite <- Hshape in *. rewrite filter_none.
    - simpl. now rewrite app_nil_r.
    - intros row Hrow Hnew. apply is_new_draft_player_spec in Hnew.
      apply Hnew. now apply Hknown. }
  split; [exact Heq|]. intros Hsorted. rewrite Heq. f_equal.
  now apply sort_values_id.
Qed.

Lemma known_picks_add_nothing_witness :
  add_missing_players_to_draft_history Samples.registry_2020
    [{| api_PLAYER_NAME := "New"; api_SEASON := "2025"; api_OVERALL_PICK := 1 |}]
  = Returns (sort_values Samples.registry_2020).
Proof.
  refine (proj1 (known_picks_add_nothing Samples.registry_2020
                   [{| api_PLAYER_NAME := "New"; api_SEASON := "2025";
                       api_OVERALL_PICK := 1 |}] _ _)).
  - discriminate.
  - intros row Hrow. apply list_elem_of_singleton in Hrow. subst row.
    apply list_elem_of_In. simpl. now left.
Defined.

Lemma filter_all {A} (P : A -> Prop) `{forall x, Decision (P x)} (l : list A) :
  (forall x, x ∈ l -> P x) -> filter P l = l.
Proof.
  induction l as [|x l IH]; intros Hall; [reflexivity|].
  rewrite filter_cons_True by (apply Hall; left).
  f_equal. apply IH. intros y Hy. apply Hall. now right.
Qed.

(** The first build, then the reconciliation.  When
    [download_draft_history] has written the records of a fetched frame
    that has rows, all with a null PROBALLERS_ID and one for every fetched
    row, the reconciliation with the same fetched frame adds nothing and
    writes these records sorted.  The reconciliation cannot stand in for
    the first build: on a file that holds no record it raises. *)
Theorem first_build_then_reconcile
    (from_nba_api : list DraftRow) (written : list Entrant) :
  from_nba_api <> [] ->
  download_draft_history from_nba_api = Returns written ->
  add_missing_players_to_draft_history written from_nba_api
  = Returns (sort_values written)
  /\ Forall (fun player => PROBALLERS_ID player = None) written
  /\ length written = length from_nba_api
  /\ add_missing_players_to_draft_history [] from_nba_api
     = Raises (KeyError ["PROBALLERS_ID"%string]).
Proof.
  intros Hrows Hbuild. unfold download_draft_history in Hbuild.
  apply new_drafts_returns in Hbuild.
  pose proof (Forall2_length _ _ _ Hbuild) as Hlength.
  split; [|split; [|split; [now symmetry|reflexivity]]].
  - unfold add_missing_players_to_draft_history.
    destruct written as [|player others] eqn:Hshape.
    { destruct from_nba_api; [congruence|discriminate]. }
    rewrite <- Hshape in *. rewrite filter_none.
    + simpl. now rewrite app_nil_r.
    + intros row Hrow Hnew. apply is_new_draft_player_spec in Hnew.
      apply Hnew. apply list_elem_of_lookup in Hrow as [i Hi].
      destruct (Forall2_lookup_l _ _ _ _ _ Hbuild Hi) as (player' & Hp & Hconv).
      apply new_draft_returns in Hconv as (_ & _ & _ & <-).
      apply list_elem_of_fmap. exists player'. split; [reflexivity|].
      apply list_elem_of_lookup. now exists i.
  - apply Forall_forall. intros player Hplayer.
    apply list_elem_of_lookup in Hplayer as [i Hi].
    destruct (Forall2_lookup_r _ _ _ _ _ Hbuild Hi) as (row & _ & Hconv).
    now apply new_draft_returns in Hconv as (_ & Hnull & _).
Qed.

Lemma first_build_then_reconcile_witness :
  add_missing_players_to_draft_history
    [{| PLAYER_NAME := "X"; PROBALLERS_ID := None; SEASON := 2024;
        OVERALL_PICK := 70 |}]
    [{| api_PLAYER_NAME := "X"; api_SEASON := "2024"; api_OVERALL_PICK := 70 |}]
  = Returns
      (sort_values
         [{| PLAYER_NAME := "X"; PROBALLERS_ID := None; SEASON := 2024;
             OVERALL_PICK := 70 |}]).
Proof.
  refine (proj1 (first_build_then_reconcile
                   [{| api_PLAYER_NAME := "X"; api_SEASON := "2024";
                       api_OVERALL_PICK := 70 |}]
                   [{| PLAYER_NAME := "X"; PROBALLERS_ID := None;
                       SEASON := 2024; OVERALL_PICK := 70 |}] _ _)).
  - discriminate.
  - reflexivity.
Defined.

End MoreRegistryFacts.

(** ** The per-year update: what the files hold afterwards *)

Section MoreScrapeFacts.
Import Registry Scrape Build.

Variable proballers : Z -> page.

(** The frames appended for the players of a year are their tables, in
    order. *)
Lemma scrape_players_frames draft_year players dfs lines :
  scrape_players proballers draft_year players = (Returns dfs, lines) ->
  concat dfs
  = flat_map (fun player : Entrant * Z =>
                match proballers player.2 with
                | Table rows => map (player_career player.1 player.2 draft_year) rows
                | _ => []
                end) players.
Proof.
  revert dfs lines.
  induction players as [|[row id] players IH]; intros dfs lines; simpl.
  - now intros [= <- _].
  - destruct (proballers id) as [| | |rows]; [discriminate| | |].
    + destruct (scrape_players _ _ players) as [result lines'].
      intros [= -> _]. now eapply IH.
    + destruct (scrape_players _ _ players) as [result lines'].
      intros [= -> _]. now eapply IH.
    + destruct (scrape_players _ _ players) as [[dfs'|e] lines'];
        [|discriminate].
      intros [= <- _]. simpl. f_equal. now eapply IH.
Qed.

Lemma scrape_players_no_failure draft_year players :
  Forall (fun player : Entrant * Z => proballers player.2 <> RequestFails)
    players ->
  exists dfs lines,
    scrape_players proballers draft_year players = (Returns dfs, lines).
Proof.
  induction 1 as [|[row id] players Hpage Hrest (dfs & lines & IH)]; simpl.
  - now do 2 eexists.
  - simpl in Hpage.
    destruct (proballers id) as [| | |rows]; [congruence| | |];
      rewrite IH; now do 2 eexists.
Qed.

Lemma scrape_players_some_table draft_year players dfs lines player rows :
  scrape_players proballers draft_year players = (Returns dfs, lines) ->
  player ∈ players -> proballers player.2 = Table rows -> dfs <> [].
Proof.
  revert dfs lines.
  induction players as [|[row id] players IH]; intros dfs lines Hrun Hin Hpage.
  - now apply elem_of_nil in Hin.
  - simpl in Hrun.
    apply elem_of_cons in Hin as [->|Hin].
    + simpl in Hpage. rewrite Hpage in Hrun.
      destruct (scrape_players _ _ players) as [[dfs'|e] lines'];
        [|discriminate].
      now injection Hrun as <- _.
    + destruct (proballers id) as [| | |rows0]; [discriminate| | |].
      * destruct (scrape_players _ _ players) as [result lines'].
        injection Hrun as -> _. now eapply IH.
      * destruct (scrape_players _ _ players) as [result lines'].
        injection Hrun as -> _. now eapply IH.
      * destruct (scrape_players _ _ players) as [[dfs'|e] lines'];
          [|discriminate].
        now injection Hrun as <- _.
Qed.

Lemma scrape_players_failure draft_year players player :
  player ∈ players -> proballers player.2 = RequestFails ->
  exists lines,
    scrape_players proballers draft_year players
    = (Raises RequestException, lines).
Proof.
  induction players as [|[row id] players IH]; intros Hin Hpage.
  - now apply elem_of_nil in Hin.
  - simpl. apply elem_of_cons in Hin as [->|Hin].
    + simpl in Hpage. rewrite Hpage. now eexists.
    + destruct (IH Hin Hpage) as [lines Hrest].
      destruct (proballers id) as [| | |rows]; [now eexists|..];
        rewrite Hrest; now eexists.
Qed.

(** The update never removes a file and never takes back a printed line:
    every year that had a file still has one, and the console is the old
    console with lines added at its end. *)
Theorem update_keeps_files_and_console
    (df_draft_history : list Entrant) (years : list Z) (st : store) :
  (forall year,
     is_Some (career_paths st !! year) ->
     is_Some (career_paths
                (scrape_career_paths proballers df_draft_history years st).2
              !! year))
  /\ exists lines,
       console (scrape_career_paths proballers df_draft_history years st).2
       = console st ++ lines.
Proof.
  unfold scrape_career_paths. revert st.
  induction years as [|y years IH]; intros st.
  - split; [auto|]. exists []. now rewrite app_nil_r.
  - cbn [scrape_years].
    destruct (bool_decide (df_draft_history = [])).
    { split; [auto|]. exists []. now rewrite app_nil_r. }
    destruct (negb (isin y (map SEASON df_draft_history))).
    { split; [auto|]. now eexists. }
    destruct (scrape_players proballers y _) as [[dfs|e] lines].
    2:{ split; [auto|]. cbn. rewrite <- app_assoc. now eexists. }
    destruct (pd_concat dfs) as [frame|e].
    2:{ split; [auto|]. cbn. rewrite <- app_assoc. now eexists. }
    destruct (IH (to_json y frame
                    (print (lines ++ [BlankLine])
                       (print [UpdatingCareerPaths
                                 (length (players_to_update df_draft_history y))]
                          st)))) as [Hfiles [more Hconsole]].
    split.
    + intros year Hyear. apply Hfiles. cbn.
      destruct (decide (y = year)) as [->|Hne].
      * rewrite lookup_insert_eq. now eexists.
      * now rewrite lookup_insert_ne.
    + rewrite Hconsole. cbn. rewrite <- !app_assoc. now eexists.
Qed.

(** A file is never merged or written in part: after the update, whatever
    its outcome, the file of a year is the file from before, or it is
    exactly the tables of the players of that year, for a requested year
    of the registry. *)
Theorem year_file_is_untouched_or_replaced
    (df_draft_history : list Entrant) (years : list Z) (st : store) (year : Z) :
  career_paths (scrape_career_paths proballers df_draft_history years st).2
    !! year = career_paths st !! year
  \/ (year ∈ years
      /\ year ∈ map SEASON df_draft_history
      /\ career_paths (scrape_career_paths proballers df_draft_history years st).2
           !! year
         = Some (tables_of_year proballers df_draft_history year)).
Proof.
  unfold scrape_career_paths. revert st.
  induction years as [|y years IH]; intros st; [now left|].
  cbn [scrape_years].
  destruct (bool_decide (df_draft_history = [])); [now left|].
  destruct (negb (isin y (map SEASON df_draft_history))) eqn:Hknown;
    [now left|].
  apply negb_false_iff, isin_true in Hknown.
  destruct (scrape_players proballers y _) as [[dfs|e] lines] eqn:Hplayers;
    [|now left].
  destruct (pd_concat dfs) as [frame|e] eqn:Hconcat; [|now left].
  apply pd_concat_returns in Hconcat.
  apply scrape_players_frames in Hplayers.
  match goal with
  | |- context [scrape_years _ _ years ?s] => destruct (IH s) as [Hsame|Hnew]
  end.
  - rewrite Hsame. cbn.
    destruct (decide (y = year)) as [->|Hne].
    + right. rewrite lookup_insert_eq. split; [left|]. split; [exact Hknown|].
      f_equal. rewrite Hconcat. exact Hplayers.
    + left. now rewrite lookup_insert_ne.
  - right. destruct Hnew as (Hin & Hseason & Hfile).
    split; [now right|]. now split.
Qed.

(** A failed request ends the update with the exception of the request:
    when a player selected for a requested year of the registry has a page
    that cannot be fetched, the update of that year raises and writes no
    file. *)
Theorem failed_request_raises
    (df_draft_history : list Entrant) (draft_year : Z) (rest : list Z)
    (st : store) (player : Entrant * Z) :
  draft_year ∈ map SEASON df_draft_history ->
  player ∈ players_to_update df_draft_history draft_year ->
  proballers player.2 = RequestFails ->
  (scrape_career_paths proballers df_draft_history (draft_year :: rest) st).1
  = Raises RequestException
  /\ career_paths
       (scrape_career_paths proballers df_draft_history (draft_year :: rest) st).2
     = career_paths st.
Proof.
  intros Hyear Hplayer Hpage.
  destruct (scrape_players_failure draft_year _ _ Hplayer Hpage) as [lines Hrun].
  unfold scrape_career_paths. cbn [scrape_years].
  apply isin_true in Hyear.
  rewrite (known_year_registry _ _ Hyear), Hyear. cbn [negb]. rewrite Hrun.
  now split.
Qed.

(** A complete update: when every requested year is in the registry, no
    page of a selected player fails to load, and every requested year has
    a selected player whose page has a table, the update returns and the
    file of every requested year holds exactly the tables of its players;
    the file of every other year is as before. *)
Theorem complete_update_writes_every_year
    (df_draft_history : list Entrant) (years : list Z) (st : store) :
  Forall (fun year => year ∈ map SEASON df_draft_history) years ->
  (forall year player,
     year ∈ years -> player ∈ players_to_update df_draft_history year ->
     proballers player.2 <> RequestFails) ->
  (forall year, year ∈ years ->
     exists player rows,
       player ∈ players_to_update df_draft_history year
       /\ proballers player.2 = Table rows) ->
  (scrape_career_paths proballers df_draft_history years st).1 = Returns tt
  /\ (forall year, year ∈ years ->
        career_paths (scrape_career_paths proballers df_draft_history years st).2
          !! year
        = Some (tables_of_year proballers df_draft_history year))
  /\ (forall year, year ∉ years ->
        career_paths (scrape_career_paths proballers df_draft_history years st).2
          !! year
        = career_paths st !! year).
Proof.
  intros Hknown Hpages Htables.
  split; [|split; [|intros year; apply scrape_years_other_files]].
  - unfold scrape_career_paths. revert st.
    induction Hknown as [|y years Hy Hyears IH]; intros st; [reflexivity|].
    cbn [scrape_years]. apply isin_true in Hy.
    rewrite (known_year_registry _ _ Hy), Hy. cbn [negb].
    destruct (scrape_players_no_failure y (players_to_update df_draft_history y))
      as (dfs & lines & Hrun).
    { apply Forall_forall. intros player Hplayer.
      apply (Hpages y); [left|assumption]. }
    rewrite Hrun.
    destruct (Htables y) as (player & rows & Hplayer & Hpage); [left|].
    pose proof (scrape_players_some_table _ _ _ _ _ _ Hrun Hplayer Hpage) as Hne.
    destruct dfs as [|df dfs]; [congruence|]. cbn [pd_concat].
    apply IH.
    + intros year p Hin. apply Hpages. now right.
    + intros year Hin. apply Htables. now right.
  - unfold scrape_career_paths. revert st.
    induction Hknown as [|y years Hy Hyears IH]; intros st year Hin;
      [now apply elem_of_nil in Hin|].
    cbn [scrape_years]. apply isin_true in Hy.
    rewrite (known_year_registry _ _ Hy), Hy. cbn [negb].
    destruct (scrape_players_no_failure y (players_to_update df_draft_history y))
      as (dfs & lines & Hrun).
    { apply Forall_forall. intros player Hplayer.
      apply (Hpages y); [left|assumption]. }
    rewrite Hrun.
    destruct (Htables y) as (player & rows & Hplayer & Hpage); [left|].
    pose proof (scrape_players_some_table _ _ _ _ _ _ Hrun Hplayer Hpage) as Hne.
    pose proof (scrape_players_frames _ _ _ _ Hrun) as Hframe.
    destruct dfs as [|df dfs]; [congruence|]. cbn [pd_concat].
    destruct (decide (year ∈ years)) as [Hrest|Hrest].
    + apply IH; [| |exact Hrest].
      * intros year' p Hin'. apply Hpages. now right.
      * intros year' Hin'. apply Htables. now right.
    + apply elem_of_cons in Hin as [->|Hin]; [|contradiction].
      pose proof (scrape_years_other_files proballers df_draft_history years)
        as Hother.
      unfold scrape_career_paths in Hother. rewrite Hother by assumption.
      cbn. rewrite lookup_insert_eq. f_equal. exact Hframe.
Qed.

(** The entry point requests the draft years from 2003 to the current
    year only: the file of an earlier or of a later draft year is never
    written by [main]. *)
Theorem main_leaves_other_years_alone
    (current_year : Z) (from_file : list Entrant) (from_nba_api : list DraftRow)
    (st : store) (year : Z) :
  year < 2003 \/ current_year < year ->
  career_paths (main proballers current_year from_file from_nba_api st).2.2
    !! year
  = career_paths st !! year.
Proof.
  intros Hyear. unfold main.
  destruct (add_missing_players_to_draft_history from_file from_nba_api)
    as [df_draft_history|e]; [|reflexivity].
  cbn [snd]. apply scrape_years_other_files.
  unfold py_range. intros Hin.
  apply list_elem_of_fmap in Hin as (i & -> & Hi).
  apply elem_of_seq in Hi. lia.
Qed.

End MoreScrapeFacts.

Section MoreScrapeExamples.
Import Registry Scrape Build Samples.

Lemma failed_request_raises_witness :
  (scrape_career_paths site_unreachable registry_2020 [2020] fresh_store).1
  = Raises RequestException
  /\ career_paths
       (scrape_career_paths site_unreachable registry_2020 [2020] fresh_store).2
     = career_paths fresh_store.
Proof.
  apply (failed_request_raises site_unreachable registry_2020 2020 []
           fresh_store
           ({| PLAYER_NAME := "A"; PROBALLERS_ID := Some 7; SEASON := 2020;
               OVERALL_PICK := 1 |}, 7)).
  - apply list_elem_of_In. simpl. now left.
  - apply list_elem_of_In. simpl. now left.
  - reflexivity.
Defined.

Lemma complete_update_writes_every_year_witness :
  (scrape_career_paths site_with_table registry_2020 [2020] fresh_store).1
  = Returns tt.
Proof.
  refine (proj1 (complete_update_writes_every_year site_with_table
                   registry_2020 [2020] fresh_store _ _ _)).
  - repeat constructor.
  - intros year player _ _. discriminate.
  - intros year Hyear. apply list_elem_of_singleton in Hyear. subst year.
    exists ({| PLAYER_NAME := "A"; PROBALLERS_ID := Some 7; SEASON := 2020;
               OVERALL_PICK := 1 |}, 7).
    eexists. split; [|reflexivity].
    apply list_elem_of_In. simpl. now left.
Defined.

Lemma main_leaves_other_years_alone_witness :
  career_paths (main site_with_table 2026 registry_2020 [] fresh_store).2.2
    !! 2002
  = career_paths fresh_store !! 2002.
Proof.
  apply (main_leaves_other_years_alone site_with_table 2026 registry_2020 []
           fresh_store 2002).
  left. lia.
Defined.

End MoreScrapeExamples.

(** ** The country resolver: what is saved and what the frame holds *)

Section MoreCountriesFacts.
Import Countries.

Variable get_alpha_2 : string -> option MappingEntry.
Variable get_alpha_3 : string -> option MappingEntry.

(** The mappings after the loop: an entry found for a prefix of the list,
    else what the mappings held. *)
Lemma resolve_unmapped_lookup prefixes df country_mappings prefix :
  (resolve_unmapped get_alpha_2 get_alpha_3 prefixes df country_mappings).1.2
    !! prefix
  = match (if bool_decide (prefix ∈ prefixes)
           then lookup_country get_alpha_2 get_alpha_3 prefix else None) with
    | Some (Some found) => Some found
    | _ => country_mappings !! prefix
    end.
Proof.
  revert df country_mappings.
  induction prefixes as [|head rest IH]; intros df country_mappings;
    [reflexivity|].
  cbn [resolve_unmapped].
  destruct (decide (prefix = head)) as [->|Hne].
  - rewrite (bool_decide_eq_true_2 (head ∈ head :: rest)) by left.
    destruct (lookup_country _ _ head) as [[found|]|] eqn:Hlookup.
    + rewrite IH, lookup_insert_eq. now destruct (bool_decide _).
    + specialize (IH df country_mappings).
      destruct (resolve_unmapped _ _ rest df country_mappings) as [[df' m'] l'].
      cbn in *. rewrite IH. now destruct (bool_decide _).
    + rewrite IH. now destruct (bool_decide _).
  - assert (Hmem : bool_decide (prefix ∈ head :: rest)
                   = bool_decide (prefix ∈ rest)).
    { apply bool_decide_ext. rewrite elem_of_cons. tauto. }
    rewrite Hmem.
    destruct (lookup_country _ _ head) as [[found|]|].
    + rewrite IH, lookup_insert_ne by congruence. reflexivity.
    + specialize (IH df country_mappings).
      now destruct (resolve_unmapped _ _ rest df country_mappings)
        as [[df' m'] l'].
    + apply IH.
Qed.

Lemma unmapped_prefixes_elem country_mappings df prefix :
  prefix ∈ unmapped_prefixes (map (map_prefix country_mappings) df)
  <-> prefix ∈ map League_Prefix df /\ country_mappings !! prefix = None.
Proof.
  unfold unmapped_prefixes. rewrite drop_duplicates_elem. split.
  - intros Hin. apply list_elem_of_fmap in Hin as (row & -> & Hrow).
    apply list_elem_of_filter in Hrow as [Hnone Hrow].
    apply list_elem_of_fmap in Hrow as (row0 & -> & Hrow0).
    cbn in *. split.
    + apply list_elem_of_fmap. now exists row0.
    + now destruct (country_mappings !! League_Prefix row0).
  - intros [Hin Hnone].
    apply list_elem_of_fmap in Hin as (row & -> & Hrow).
    apply list_elem_of_fmap. exists (map_prefix country_mappings row).
    split; [reflexivity|].
    apply list_elem_of_filter. split.
    + cbn. now rewrite Hnone.
    + apply list_elem_of_fmap. now exists row.
Qed.

Lemma map_countries_lookup df country_mappings prefix :
  (map_countries_to_alpha3 get_alpha_2 get_alpha_3 df country_mappings).1.2
    !! prefix
  = match country_mappings !! prefix with
    | Some entry => Some entry
    | None =>
        if bool_decide (prefix ∈ map League_Prefix df)
        then match lookup_country get_alpha_2 get_alpha_3 prefix with
             | Some (Some found) => Some found
             | _ => None
             end
        else None
    end.
Proof.
  unfold map_countries_to_alpha3.
  pose proof (resolve_unmapped_lookup
                (unmapped_prefixes (map (map_prefix country_mappings) df))
                (map (map_prefix country_mappings) df)
                country_mappings prefix) as H.
  destruct (resolve_unmapped _ _ _ _ country_mappings) as [[df' m'] lines].
  cbn in *. rewrite H. clear H.
  destruct (country_mappings !! prefix) as [entry|] eqn:Hcached.
  - rewrite bool_decide_eq_false_2; [reflexivity|].
    rewrite unmapped_prefixes_elem. intros [_ Hnone]. congruence.
  - destruct (decide (prefix ∈ map League_Prefix df)) as [Hin|Hin].
    + rewrite !bool_decide_eq_true_2;
        [|assumption|now apply unmapped_prefixes_elem].
      now destruct (lookup_country _ _ prefix) as [[found|]|].
    + rewrite !bool_decide_eq_false_2;
        [reflexivity|assumption|].
      rewrite unmapped_prefixes_elem. tauto.
Qed.

(** What is saved for a prefix: a loaded entry is saved as it is; a prefix
    that is not loaded gets the country of the code list when it occurs in
    the frame, has two or three characters and the code list has it; every
    other prefix has no entry.  In particular a prefix of another length is
    saved only if it was loaded. *)
Theorem saved_mappings_for_a_prefix
    (df : list Located) (country_mappings : gmap string MappingEntry)
    (prefix : string) :
  (map_countries_to_alpha3 get_alpha_2 get_alpha_3 df country_mappings).1.2
    !! prefix
  = match country_mappings !! prefix with
    | Some entry => Some entry
    | None =>
        if bool_decide (prefix ∈ map League_Prefix df)
        then if (String.length prefix =? 2)%nat then get_alpha_2 prefix
             else if (String.length prefix =? 3)%nat then get_alpha_3 prefix
             else None
        else None
    end.
Proof.
  rewrite map_countries_lookup. unfold lookup_country.
  destruct (country_mappings !! prefix); [reflexivity|].
  destruct (bool_decide _); [|reflexivity].
  destruct (String.length prefix =? 2)%nat; [now destruct (get_alpha_2 _)|].
  destruct (String.length prefix =? 3)%nat; [now destruct (get_alpha_3 _)|].
  reflexivity.
Qed.

(** The frame returned and the mappings saved agree: every row has the
    code and the name that the saved mappings hold for its prefix, null
    when they hold none; and the list printed at the end names exactly the
    prefixes of the frame that the saved mappings do not have. *)
Theorem frame_agrees_with_saved_mappings
    (df : list Located) (country_mappings : gmap string MappingEntry) :
  Forall2
    (fun row row' =>
       placement row' = placement row
       /\ League_Prefix row' = League_Prefix row
       /\ Country_Alpha3 row'
          = ALPHA_3 <$> (map_countries_to_alpha3 get_alpha_2 get_alpha_3
                           df country_mappings).1.2 !! League_Prefix row
       /\ Country_Name row'
          = NAME <$> (map_countries_to_alpha3 get_alpha_2 get_alpha_3
                        df country_mappings).1.2 !! League_Prefix row)
    df
    (map_countries_to_alpha3 get_alpha_2 get_alpha_3 df country_mappings).1.1
  /\ (forall prefix,
        prefix ∈ unmapped_prefixes
                   (map_countries_to_alpha3 get_alpha_2 get_alpha_3
                      df country_mappings).1.1
        <-> prefix ∈ map League_Prefix df
            /\ (map_countries_to_alpha3 get_alpha_2 get_alpha_3
                  df country_mappings).1.2 !! prefix = None).
Proof.
  rewrite map_countries_rows. split.
  - apply Forall2_fmap_r, Forall_Forall2_diag, Forall_forall.
    intros row _. now cbn.
  - intros prefix. apply unmapped_prefixes_elem.
Qed.

(** A second pass changes nothing: resolving the frame returned, with the
    mappings saved, returns the same frame and saves the same mappings. *)
Theorem second_pass_changes_nothing
    (df : list Located) (country_mappings : gmap string MappingEntry) :
  (map_countries_to_alpha3 get_alpha_2 get_alpha_3
     (map_countries_to_alpha3 get_alpha_2 get_alpha_3 df country_mappings).1.1
     (map_countries_to_alpha3 get_alpha_2 get_alpha_3 df country_mappings).1.2).1
  = (map_countries_to_alpha3 get_alpha_2 get_alpha_3 df country_mappings).1.
Proof.
  set (first := map_countries_to_alpha3 get_alpha_2 get_alpha_3 df country_mappings).
  assert (Hprefixes : map League_Prefix first.1.1 = map League_Prefix df).
  { unfold first. rewrite map_countries_rows, map_map. now apply map_ext. }
  assert (Hsaved : (map_countries_to_alpha3 get_alpha_2 get_alpha_3
                      first.1.1 first.1.2).1.2 = first.1.2).
  { apply map_eq. intros prefix. rewrite map_countries_lookup, Hprefixes.
    destruct (first.1.2 !! prefix) as [entry|] eqn:Hfirst; [reflexivity|].
    unfold first in Hfirst. rewrite map_countries_lookup in Hfirst.
    now destruct (country_mappings !! prefix). }
  assert (Hrows : first.1.1 = map (map_prefix first.1.2) df)
    by apply map_countries_rows.
  apply injective_projections; [|exact Hsaved].
  rewrite (map_countries_rows get_alpha_2 get_alpha_3 first.1.1 first.1.2).
  rewrite Hsaved.
  rewrite Hrows at 2. rewrite Hrows at 1. rewrite map_map.
  now apply map_ext.
Qed.

End MoreCountriesFacts.

(** ** The aggregator: when it returns and which rows it returns *)

Section MoreAggregatorFacts.
Import Registry Countries Aggregator.

Variable get_alpha_2 : string -> option MappingEntry.
Variable get_alpha_3 : string -> option MappingEntry.

Lemma merge_left_elem df_draft_history row row_joined :
  row_joined ∈ merge_left df_draft_history row ->
  located row_joined = row
  /\ ((Draft_Year row_joined = None /\ Overall_Pick row_joined = None
       /\ forall player, player ∈ df_draft_history ->
            PROBALLERS_ID player <> Some (Proballers_ID (placement row)))
      \/ exists player,
           player ∈ df_draft_history
           /\ PROBALLERS_ID player = Some (Proballers_ID (placement row))
           /\ Draft_Year row_joined = Some (SEASON player)
           /\ Overall_Pick row_joined = Some (OVERALL_PICK player)).
Proof.
  unfold merge_left.
  destruct (filter _ df_draft_history) as [|first others] eqn:Hmatches.
  - intros Hin. apply list_elem_of_singleton in Hin as ->. cbn.
    split; [reflexivity|]. left. repeat split.
    intros player Hplayer Hid.
    assert (Hin : player ∈ filter
                    (fun player => PROBALLERS_ID player
                                   = Some (Proballers_ID (placement row)))
                    df_draft_history)
      by (apply list_elem_of_filter; now split).
    rewrite Hmatches in Hin. now apply elem_of_nil in Hin.
  - intros Hin. apply list_elem_of_fmap in Hin as (player & -> & Hplayer).
    cbn. split; [reflexivity|]. right. exists player.
    rewrite <- Hmatches in Hplayer.
    apply list_elem_of_filter in Hplayer as [Hid Hplayer]. now repeat split.
Qed.

Lemma merge_left_not_empty df_draft_history row :
  exists row_joined, row_joined ∈ merge_left df_draft_history row.
Proof.
  unfold merge_left.
  destruct (filter _ df_draft_history) as [|first others].
  - eexists. left.
  - eexists. cbn. left.
Qed.

Lemma years_from_draft_returns_iff current_year row_joined :
  (exists years, (years_from_draft current_year row_joined).1 = Returns years)
  <-> exists start_yy,
        py_int (split_dash_first (Season (placement (located row_joined))))
        = Returns start_yy.
Proof.
  unfold years_from_draft, Timeline.calculate_years_since_draft,
    Timeline.years_since_draft_in_order, Timeline.calculate_years_since_draft_nan.
  destruct (py_int _) as [start_yy|e].
  - split; [now eexists|]. intros _.
    destruct (Draft_Year row_joined) as [draft_year|]; [|now eexists].
    cbv zeta. destruct (Timeline.accepted_century _ _ _ _); now eexists.
  - split; [|intros [start_yy [=]]].
    intros [years Hyears].
    now destruct (Draft_Year row_joined).
Qed.

Lemma apply_years_total current_year df :
  Forall (fun row_joined =>
            exists years,
              (years_from_draft current_year row_joined).1 = Returns years) df ->
  exists rows lines, apply_years current_year df = (Returns rows, lines).
Proof.
  induction 1 as [|row_joined rest [years Hyears] Hrest (rows & lines & IH)];
    simpl.
  - now do 2 eexists.
  - destruct (years_from_draft current_year row_joined) as [[y|e] lines1];
      [|discriminate].
    rewrite IH. now do 2 eexists.
Qed.

Lemma apply_years_elem current_year df rows lines row :
  apply_years current_year df = (Returns rows, lines) ->
  row ∈ rows
  <-> joined row ∈ df
      /\ (years_from_draft current_year (joined row)).1
         = Returns (Years_From_Draft row).
Proof.
  intros Happly. apply apply_years_returns in Happly. split.
  - intros Hrow. apply list_elem_of_lookup in Hrow as [i Hi].
    destruct (Forall2_lookup_r _ _ _ _ _ Happly Hi) as (j & Hj & <- & Hyears).
    split; [|exact Hyears]. apply list_elem_of_lookup. now exists i.
  - intros [Hj Hyears]. apply list_elem_of_lookup in Hj as [i Hi].
    destruct (Forall2_lookup_l _ _ _ _ _ Happly Hi) as (row' & Hrow' & Hj & Hy).
    assert (row' = row) as <-.
    { destruct row, row'. cbn in *. subst. rewrite Hyears in Hy. congruence. }
    apply list_elem_of_lookup. now exists i.
Qed.

Lemma create_returns_inputs
    current_year batches country_mappings df_draft_history out :
  (create_dataframe_of_career_paths get_alpha_2 get_alpha_3
     current_year batches country_mappings df_draft_history).1.1 = Returns out ->
  concat batches <> [] /\ df_draft_history <> [].
Proof.
  unfold create_dataframe_of_career_paths.
  destruct (pd_concat batches) as [df_career_paths|e] eqn:Hconcat;
    [|discriminate].
  apply pd_concat_returns in Hconcat. subst df_career_paths.
  destruct (decide (concat batches = [])) as [Hno|Hrows].
  { rewrite bool_decide_eq_true_2 by assumption. discriminate. }
  rewrite bool_decide_eq_false_2 by assumption.
  destruct (map_countries_to_alpha3 _ _ _ country_mappings)
    as [[df mappings'] lines].
  destruct (decide (df_draft_history = [])) as [Hnone|Hrecords].
  { rewrite bool_decide_eq_true_2 by assumption. discriminate. }
  now split.
Qed.

Lemma create_unfold current_year batches country_mappings df_draft_history :
  concat batches <> [] -> df_draft_history <> [] ->
  create_dataframe_of_career_paths get_alpha_2 get_alpha_3
    current_year batches country_mappings df_draft_history
  = let resolved :=
      map_countries_to_alpha3 get_alpha_2 get_alpha_3
        (map with_prefix (concat batches)) country_mappings in
    let applied :=
      apply_years current_year
        (joined_frame get_alpha_2 get_alpha_3 batches country_mappings df_draft_history) in
    (match applied.1 with
     | Returns rows =>
         Returns (drop_duplicates
                    (filter (fun row => is_plausible row = true) rows))
     | Raises e => Raises e
     end,
     resolved.1.2, resolved.2 ++ applied.2).
Proof.
  intros Hrows Hrecords. unfold create_dataframe_of_career_paths, joined_frame.
  destruct batches as [|batch batches]; [now contradiction Hrows|].
  cbn [pd_concat]. rewrite bool_decide_eq_false_2 by assumption.
  destruct (map_countries_to_alpha3 _ _ _ country_mappings)
    as [[df mappings'] lines].
  rewrite bool_decide_eq_false_2 by assumption.
  cbn. now destruct (apply_years current_year _) as [[rows|e] lines'].
Qed.

Lemma joined_frame_elem batches country_mappings df_draft_history row_joined :
  row_joined ∈ joined_frame get_alpha_2 get_alpha_3 batches country_mappings df_draft_history
  <-> exists row_placement,
        row_placement ∈ concat batches
        /\ row_joined
           ∈ merge_left df_draft_history
               (map_prefix
                  (map_countries_to_alpha3 get_alpha_2 get_alpha_3
                     (map with_prefix (concat batches)) country_mappings).1.2
                  (with_prefix row_placement)).
Proof.
  unfold joined_frame. rewrite map_countries_rows.
  rewrite list_elem_of_In, in_flat_map. split.
  - intros (row & Hrow & Hin).
    apply in_map_iff in Hrow as (located_row & <- & Hloc).
    apply in_map_iff in Hloc as (row_placement & <- & Hp).
    exists row_placement. split; now apply list_elem_of_In.
  - intros (row_placement & Hp & Hin). eexists. split.
    + apply in_map_iff. eexists. split; [reflexivity|].
      apply in_map_iff. eexists. split; [reflexivity|].
      apply list_elem_of_In. exact Hp.
    + now apply list_elem_of_In.
Qed.

(** The aggregator returns a frame when the batch files have a placement,
    the draft history has a record and the season label of every placement
    can be read. *)
Lemma create_returns_iff current_year batches country_mappings df_draft_history :
  (exists out,
     (create_dataframe_of_career_paths get_alpha_2 get_alpha_3
        current_year batches country_mappings df_draft_history).1.1
     = Returns out)
  <-> concat batches <> []
      /\ df_draft_history <> []
      /\ Forall (fun row_placement =>
                   exists start_yy,
                     py_int (split_dash_first (Season row_placement))
                     = Returns start_yy) (concat batches).
Proof.
  split.
  - intros [out Hout].
    destruct (create_returns_inputs _ _ _ _ _ Hout) as [Hrows Hrecords].
    split; [assumption|]. split; [assumption|].
    rewrite create_unfold in Hout by assumption. cbn in Hout.
    destruct (apply_years current_year _) as [[rows|e] lines] eqn:Happly;
      [|discriminate].
    apply Forall_forall. intros row_placement Hp.
    destruct (merge_left_not_empty df_draft_history
                (map_prefix
                   (map_countries_to_alpha3 get_alpha_2 get_alpha_3
                      (map with_prefix (concat batches)) country_mappings).1.2
                   (with_prefix row_placement))) as [row_joined Hj].
    pose proof (proj1 (merge_left_elem _ _ _ Hj)) as Hloc.
    assert (Hin : row_joined
                  ∈ joined_frame get_alpha_2 get_alpha_3 batches country_mappings df_draft_history)
      by (apply joined_frame_elem; eauto).
    apply apply_years_returns in Happly.
    apply list_elem_of_lookup in Hin as [i Hi].
    destruct (Forall2_lookup_l _ _ _ _ _ Happly Hi) as (row & _ & _ & Hy).
    destruct (proj1 (years_from_draft_returns_iff current_year row_joined))
      as [start_yy Hyy]; [eauto|].
    rewrite Hloc in Hyy. cbn in Hyy. eauto.
  - intros (Hrows & Hrecords & Hlabels).
    rewrite create_unfold by assumption. cbn.
    destruct (apply_years_total current_year
                (joined_frame get_alpha_2 get_alpha_3 batches country_mappings df_draft_history))
      as (rows & lines & Happly).
    + apply Forall_forall. intros row_joined Hin.
      apply joined_frame_elem in Hin as (row_placement & Hp & Hj).
      apply years_from_draft_returns_iff.
      rewrite (proj1 (merge_left_elem _ _ _ Hj)). cbn.
      rewrite Forall_forall in Hlabels. now apply Hlabels.
    + rewrite Happly. cbn. eauto.
Qed.

(** The rows of the frame returned. *)
Lemma create_elem current_year batches country_mappings df_draft_history out row :
  (create_dataframe_of_career_paths get_alpha_2 get_alpha_3
     current_year batches country_mappings df_draft_history).1.1 = Returns out ->
  row ∈ out
  <-> joined row ∈ joined_frame get_alpha_2 get_alpha_3 batches country_mappings df_draft_history
      /\ (years_from_draft current_year (joined row)).1
         = Returns (Years_From_Draft row)
      /\ is_plausible row = true.
Proof.
  intros Hout.
  destruct (create_returns_inputs _ _ _ _ _ Hout) as [Hrows Hrecords].
  revert Hout. rewrite create_unfold by assumption. cbn.
  destruct (apply_years current_year _) as [[rows|e] lines] eqn:Happly;
    [|discriminate].
  cbn. intros [= <-].
  rewrite drop_duplicates_elem, list_elem_of_filter.
  rewrite (apply_years_elem _ _ _ _ row Happly). tauto.
Qed.

Lemma create_NoDup current_year batches country_mappings df_draft_history out :
  (create_dataframe_of_career_paths get_alpha_2 get_alpha_3
     current_year batches country_mappings df_draft_history).1.1 = Returns out ->
  NoDup out.
Proof.
  intros Hout.
  destruct (create_returns_inputs _ _ _ _ _ Hout) as [Hrows Hrecords].
  revert Hout. rewrite create_unfold by assumption. cbn.
  destruct (apply_years current_year _) as [[rows|e] lines]; [|discriminate].
  cbn. intros [= <-]. apply drop_duplicates_NoDup.
Qed.

Lemma create_saved current_year batches country_mappings df_draft_history :
  concat batches <> [] ->
  (create_dataframe_of_career_paths get_alpha_2 get_alpha_3
     current_year batches country_mappings df_draft_history).1.2
  = (map_countries_to_alpha3 get_alpha_2 get_alpha_3
       (map with_prefix (concat batches)) country_mappings).1.2.
Proof.
  intros Hrows. unfold create_dataframe_of_career_paths.
  destruct batches as [|batch batches]; [now contradiction Hrows|].
  cbn [pd_concat]. rewrite bool_decide_eq_false_2 by assumption.
  destruct (map_countries_to_alpha3 _ _ _ country_mappings)
    as [[df mappings'] lines].
  destruct (bool_decide (df_draft_history = [])); [reflexivity|].
  now destruct (apply_years current_year _) as [[rows|e] lines'].
Qed.

End MoreAggregatorFacts.

Section AggregatorResults.
Import Registry Countries Aggregator.

Variable get_alpha_2 : string -> option MappingEntry.
Variable get_alpha_3 : string -> option MappingEntry.

(** Every row of the frame returned belongs to a drafted player: its
    placement is one of the input, a record of the draft history has its
    identifier and gives its draft year and pick, and its years from draft
    are what the normalizer returns for its label and that draft year, a
    number above -10 and at most 30.  A placement without a record in the
    draft history leaves no row. *)
Theorem returned_rows_have_a_drafted_player
    current_year (batches : list (list Placement))
    (country_mappings : gmap string MappingEntry)
    (df_draft_history : list Entrant) (out : list CareerPath) (row : CareerPath) :
  (create_dataframe_of_career_paths get_alpha_2 get_alpha_3
     current_year batches country_mappings df_draft_history).1.1 = Returns out ->
  row ∈ out ->
  exists player years,
    player ∈ df_draft_history
    /\ PROBALLERS_ID player
       = Some (Proballers_ID (placement (located (joined row))))
    /\ Draft_Year (joined row) = Some (SEASON player)
    /\ Overall_Pick (joined row) = Some (OVERALL_PICK player)
    /\ Years_From_Draft row = Some years
    /\ -10 < years <= 30
    /\ (Timeline.calculate_years_since_draft current_year
          (Season (placement (located (joined row)))) (SEASON player)).1
       = Returns years
    /\ placement (located (joined row)) ∈ concat batches.
Proof.
  intros Hout Hrow.
  apply (create_elem _ _ _ _ _ _ _ row Hout) in Hrow
    as (Hjoined & Hyears & Hplausible).
  apply joined_frame_elem in Hjoined as (row_placement & Hp & Hj).
  apply merge_left_elem in Hj as [Hloc Hmatch].
  unfold is_plausible in Hplausible.
  destruct (Years_From_Draft row) as [years|] eqn:Hy; [|discriminate].
  apply andb_true_iff in Hplausible as [Hlow Hhigh].
  apply Z.ltb_lt in Hlow. apply Z.leb_le in Hhigh.
  unfold years_from_draft in Hyears.
  destruct Hmatch as [(Hnone & _ & _)|(player & Hplayer & Hid & Hdraft & Hpick)].
  - rewrite Hnone in Hyears.
    unfold Timeline.calculate_years_since_draft_nan in Hyears.
    destruct (py_int _); discriminate.
  - rewrite Hdraft in Hyears. exists player, years.
    rewrite Hloc in *. cbn in Hid |- *.
    repeat split; try assumption.
    destruct (Timeline.calculate_years_since_draft _ _ _) as [[y|e] lines];
      cbn in *; congruence.
Qed.

(** The order in which the batch files are listed does not matter for
    what is returned and saved: for batch files with at least one
    placement, with the batches in another order the aggregator saves the
    same mappings and returns the same rows, possibly in another order. *)
Theorem batch_order_changes_only_row_order
    current_year (batches batches' : list (list Placement))
    (country_mappings : gmap string MappingEntry)
    (df_draft_history : list Entrant) (out : list CareerPath) :
  Permutation batches batches' ->
  concat batches <> [] ->
  (create_dataframe_of_career_paths get_alpha_2 get_alpha_3
     current_year batches country_mappings df_draft_history).1.1 = Returns out ->
  (create_dataframe_of_career_paths get_alpha_2 get_alpha_3
     current_year batches' country_mappings df_draft_history).1.2
  = (create_dataframe_of_career_paths get_alpha_2 get_alpha_3
       current_year batches country_mappings df_draft_history).1.2
  /\ exists out',
       (create_dataframe_of_career_paths get_alpha_2 get_alpha_3
          current_year batches' country_mappings df_draft_history).1.1
       = Returns out'
       /\ Permutation out out'.
Proof.
  intros Hperm _ Hout.
  assert (Hmem : forall row_placement,
            row_placement ∈ concat batches <-> row_placement ∈ concat batches').
  { intros row_placement. rewrite !list_elem_of_In, !in_concat.
    split; intros (batch & Hbatch & Hin); exists batch; split; try assumption.
    - now apply (Permutation_in _ Hperm).
    - now apply (Permutation_in _ (Permutation_sym Hperm)). }
  destruct (proj1 (create_returns_iff get_alpha_2 get_alpha_3 current_year
                     batches country_mappings df_draft_history))
    as (Hbatches & Hrecords & Hlabels); [eauto|].
  assert (Hbatches' : concat batches' <> []).
  { intros Hnone. apply Hbatches.
    destruct (concat batches) as [|row_placement others] eqn:Hshape;
      [reflexivity|].
    assert (Hin : row_placement ∈ concat batches') by (apply Hmem; left).
    rewrite Hnone in Hin. now apply elem_of_nil in Hin. }
  assert (Hsaved :
            (map_countries_to_alpha3 get_alpha_2 get_alpha_3
               (map with_prefix (concat batches')) country_mappings).1.2
            = (map_countries_to_alpha3 get_alpha_2 get_alpha_3
                 (map with_prefix (concat batches)) country_mappings).1.2).
  { apply map_eq. intros prefix. rewrite !map_countries_lookup.
    destruct (country_mappings !! prefix); [reflexivity|].
    erewrite bool_decide_ext; [reflexivity|].
    rewrite !list_elem_of_fmap.
    split; intros (located_row & Hprefix & Hin); exists located_row;
      (split; [assumption|]);
      apply list_elem_of_fmap in Hin as (row_placement & -> & Hp);
      apply list_elem_of_fmap_2; now apply Hmem. }
  split; [rewrite !create_saved by assumption; exact Hsaved|].
  destruct (proj2 (create_returns_iff get_alpha_2 get_alpha_3 current_year
                     batches' country_mappings df_draft_history))
    as [out' Hout'].
  { split; [assumption|]. split; [assumption|].
    rewrite Forall_forall in Hlabels |- *.
    intros row_placement Hp. apply Hlabels. now apply Hmem. }
  exists out'. split; [exact Hout'|].
  apply NoDup_Permutation.
  - now apply create_NoDup in Hout.
  - now apply create_NoDup in Hout'.
  - intros row.
    rewrite (create_elem _ _ _ _ _ _ _ row Hout).
    rewrite (create_elem _ _ _ _ _ _ _ row Hout').
    rewrite !joined_frame_elem, Hsaved.
    split; intros ((row_placement & Hp & Hj) & Hrest);
      (split; [exists row_placement; split; [now apply Hmem|exact Hj]
              |exact Hrest]).
Qed.

End AggregatorResults.

Section AggregatorResultsExamples.
Import Registry Countries Aggregator Samples.

Lemma returned_rows_have_a_drafted_player_witness :
  exists player years,
    player ∈ registry_2020
    /\ PROBALLERS_ID player
       = Some (Proballers_ID (placement (located (joined career_path_20_21))))
    /\ Draft_Year (joined career_path_20_21) = Some (SEASON player)
    /\ Overall_Pick (joined career_path_20_21) = Some (OVERALL_PICK player)
    /\ Years_From_Draft career_path_20_21 = Some years
    /\ -10 < years <= 30
    /\ (Timeline.calculate_years_since_draft 2026
          (Season (placement (located (joined career_path_20_21))))
          (SEASON player)).1
       = Returns years
    /\ placement (located (joined career_path_20_21))
       ∈ concat [[placement_20_21; placement_20_21]].
Proof.
  apply (returned_rows_have_a_drafted_player
           code_list_alpha_2 code_list_alpha_3 2026
           [[placement_20_21; placement_20_21]] ∅ registry_2020
           [career_path_20_21] career_path_20_21).
  - reflexivity.
  - left.
Defined.

Lemma batch_order_changes_only_row_order_witness :
  exists out',
    (create_dataframe_of_career_paths code_list_alpha_2 code_list_alpha_3 2026
       [[placement_20_21]; []] ∅ registry_2020).1.1
    = Returns out'
    /\ Permutation [career_path_20_21] out'.
Proof.
  refine (proj2 (batch_order_changes_only_row_order
                   code_list_alpha_2 code_list_alpha_3 2026
                   [[]; [placement_20_21]] [[placement_20_21]; []]
                   ∅ registry_2020 [career_path_20_21] _ _ _)).
  - apply perm_swap.
  - discriminate.
  - reflexivity.
Defined.

End AggregatorResultsExamples.

(** ** The figure: what is counted *)

Section VisualisationFacts.
Import Registry Countries Aggregator Visualisations.

Lemma keep_first_on_map {A K} `{EqDecision K} (key : A -> K) seen rows :
  map key (keep_first_on key seen rows) = keep_first seen (map key rows).
Proof.
  revert seen. induction rows as [|row rest IH]; intros seen; simpl;
    [reflexivity|].
  destruct (bool_decide (key row ∈ seen)); simpl; now rewrite IH.
Qed.

Lemma keep_first_on_elem {A K} `{EqDecision K} (key : A -> K) seen rows row :
  row ∈ keep_first_on key seen rows -> row ∈ rows.
Proof.
  revert seen. induction rows as [|head rest IH]; intros seen; simpl;
    [easy|].
  destruct (bool_decide (key head ∈ seen)).
  - intros Hin. right. exact (IH _ Hin).
  - intros Hin. apply elem_of_cons in Hin as [->|Hin]; [left|right].
    exact (IH _ Hin).
Qed.

Lemma drop_duplicates_on_NoDup {A K} `{EqDecision K} (key : A -> K) rows :
  NoDup (map key (drop_duplicates_on key rows)).
Proof.
  unfold drop_duplicates_on. rewrite keep_first_on_map.
  apply keep_first_NoDup.
Qed.

Lemma drop_duplicates_on_keys {A K} `{EqDecision K} (key : A -> K) rows row :
  row ∈ rows ->
  exists first, first ∈ drop_duplicates_on key rows /\ key first = key row.
Proof.
  intros Hrow.
  assert (Hkey : key row ∈ map key (drop_duplicates_on key rows)).
  { unfold drop_duplicates_on. rewrite keep_first_on_map.
    apply keep_first_elem. split; [|apply not_elem_of_nil].
    apply list_elem_of_fmap. now exists row. }
  apply list_elem_of_fmap in Hkey as (first & Heq & Hfirst). eauto.
Qed.

Lemma insert_group_perm group sorted :
  Permutation (insert_group group sorted) (group :: sorted).
Proof.
  induction sorted as [|head tail IH]; simpl; [reflexivity|].
  destruct (group_leb group head); [reflexivity|].
  rewrite IH. apply perm_swap.
Qed.

Lemma sort_groups_perm groups : Permutation (sort_groups groups) groups.
Proof.
  induction groups as [|group rest IH]; simpl; [reflexivity|].
  rewrite insert_group_perm. now constructor.
Qed.

(** Over a list of distinct groups that has every group of the column,
    the sizes of the groups add up to the length of the column. *)
Lemma group_sizes_add_up {K} `{EqDecision K} (groups all : list K) :
  NoDup all -> (forall group, group ∈ groups -> group ∈ all) ->
  sum_list_with
    (fun group => length (filter (fun other => other = group) groups)) all
  = length groups.
Proof.
  intros Hnodup. induction groups as [|group rest IH]; intros Hall.
  - clear. induction all as [|a all IHall]; [reflexivity|exact IHall].
  - transitivity (sum_list_with
                    (fun g => (if decide (group = g) then 1 else 0)
                              + length (filter (fun other => other = g) rest))%nat
                    all).
    { clear. induction all as [|a all IHall]; [reflexivity|].
      simpl. rewrite IHall. f_equal.
      rewrite filter_cons. now destruct (decide (group = a)). }
    assert (Hsplit : forall f g (l : list K),
              sum_list_with (fun x => f x + g x)%nat l
              = (sum_list_with f l + sum_list_with g l)%nat).
    { intros f g l. induction l as [|x l IHl]; simpl; [reflexivity|].
      rewrite IHl. lia. }
    rewrite Hsplit, IH by (intros g Hg; apply Hall; now right).
    assert (Hone : sum_list_with
                     (fun g => if decide (group = g) then 1 else 0)%nat all
                   = 1%nat).
    { assert (Hin : group ∈ all) by (apply Hall; left).
      clear -Hnodup Hin. induction Hnodup as [|a all Ha Hnodup IHall].
      - now apply elem_of_nil in Hin.
      - simpl. destruct (decide (group = a)) as [->|Hne].
        + assert (Hzero : sum_list_with
                            (fun g => if decide (a = g) then 1 else 0)%nat all
                          = 0%nat).
          { clear -Ha. induction all as [|b all IHb]; [reflexivity|].
            simpl. apply not_elem_of_cons in Ha as [Hab Ha].
            destruct (decide (a = b)); [congruence|]. now apply IHb. }
          now rewrite Hzero.
        + apply elem_of_cons in Hin as [->|Hin]; [congruence|].
          now rewrite IHall. }
    rewrite Hone. reflexivity.
Qed.

Lemma groupby_size_elem df row :
  row ∈ groupby_size df
  <-> (exists counted, counted ∈ df /\ group_of counted = Some (count_group row))
      /\ Count row
         = length (filter (fun other => other = count_group row)
                     (omap group_of df)).
Proof.
  unfold groupby_size. cbv zeta. rewrite list_elem_of_fmap. split.
  - intros (group & -> & Hgroup).
    rewrite (sort_groups_perm _), drop_duplicates_elem in Hgroup.
    apply list_elem_of_omap in Hgroup as (counted & Hcounted & Hg).
    unfold count_group. cbn. destruct group as [[years alpha3] name]. cbn.
    split; [|reflexivity]. eauto.
  - intros [(counted & Hcounted & Hg) Hcount].
    exists (count_group row). split.
    + destruct row. unfold count_group in *. cbn in *. now rewrite Hcount.
    + rewrite (sort_groups_perm _), drop_duplicates_elem.
      apply list_elem_of_omap. eauto.
Qed.

(** Every row that is left after the removal of the duplicates and has
    its years, its country code and its country name is counted exactly
    once: the counts add up to the number of these rows, no group has two
    rows in the frame of the counts, and no count is zero. *)
Theorem counts_add_up (df_career_paths : list CareerPath) :
  sum_list_with Count
    (data_frame (plot_countries_per_year_away_from_draft df_career_paths))
  = length (omap group_of
              (drop_duplicates_on player_year_country df_career_paths))
  /\ NoDup (map count_group
              (data_frame
                 (plot_countries_per_year_away_from_draft df_career_paths)))
  /\ Forall (fun row => (1 <= Count row)%nat)
       (data_frame (plot_countries_per_year_away_from_draft df_career_paths)).
Proof.
  unfold plot_countries_per_year_away_from_draft. cbn [data_frame].
  set (df := drop_duplicates_on player_year_country df_career_paths).
  split; [|split].
  - unfold groupby_size. cbv zeta.
    set (groups := omap group_of df).
    transitivity (sum_list_with
                    (fun group =>
                       length (filter (fun other => other = group) groups))
                    (sort_groups (drop_duplicates groups))).
    { generalize (sort_groups (drop_duplicates groups)).
      intros l. induction l as [|g l IHl]; [reflexivity|].
      simpl. now rewrite IHl. }
    rewrite (sort_groups_perm _).
    apply group_sizes_add_up; [apply drop_duplicates_NoDup|].
    intros group. now rewrite drop_duplicates_elem.
  - unfold groupby_size. cbv zeta. rewrite map_map.
    rewrite (map_ext _ id), map_id.
    + rewrite (sort_groups_perm _). apply drop_duplicates_NoDup.
    + now intros [[years alpha3] name].
  - apply Forall_forall. intros row Hrow.
    apply groupby_size_elem in Hrow as [(counted & Hcounted & Hg) ->].
    assert (Hin : count_group row
                  ∈ filter (fun other => other = count_group row)
                      (omap group_of df)).
    { apply list_elem_of_filter. split; [reflexivity|].
      apply list_elem_of_omap. eauto. }
    destruct (filter _ (omap group_of df)); [now apply elem_of_nil in Hin|].
    simpl. lia.
Qed.

End VisualisationFacts.

Section MoreVisualisationFacts.
Import Registry Countries Aggregator Visualisations.

Lemma NoDup_map_inj {A B} (f : A -> B) (l : list A) x y :
  NoDup (map f l) -> x ∈ l -> y ∈ l -> f x = f y -> x = y.
Proof.
  induction l as [|a l IH]; simpl; intros Hnodup Hx Hy Heq.
  - now apply elem_of_nil in Hx.
  - apply NoDup_cons in Hnodup as [Ha Hnodup].
    apply elem_of_cons in Hx as [->|Hx]; apply elem_of_cons in Hy as [->|Hy].
    + reflexivity.
    + exfalso. apply Ha. rewrite Heq. apply list_elem_of_fmap. now exists y.
    + exfalso. apply Ha. rewrite <- Heq. apply list_elem_of_fmap. now exists x.
    + now apply IH.
Qed.

Lemma length_filter_omap {A B} (f : A -> option B) (l : list A) (b : B)
    `{forall other : B, Decision (other = b)}
    `{forall x : A, Decision (f x = Some b)} :
  length (filter (fun other => other = b) (omap f l))
  = length (filter (fun x => f x = Some b) l).
Proof.
  induction l as [|x l IH]; [reflexivity|].
  cbn [omap list_omap]. rewrite (filter_cons (fun x => f x = Some b)).
  destruct (decide (f x = Some b)) as [Hfx|Hfx].
  - rewrite Hfx, filter_cons, decide_True by reflexivity.
    simpl. now rewrite IH.
  - destruct (f x) as [b'|]; [|exact IH].
    rewrite filter_cons, decide_False by congruence. exact IH.
Qed.

Lemma group_of_some row years alpha3 name :
  group_of row = Some (years, alpha3, name)
  <-> Years_From_Draft row = Some years
      /\ Country_Alpha3 (located (joined row)) = Some alpha3
      /\ Country_Name (located (joined row)) = Some name.
Proof.
  unfold group_of.
  destruct (Years_From_Draft row), (Country_Alpha3 _), (Country_Name _);
    split; intros H; try discriminate; try (destruct H as (? & ? & ?); discriminate).
  - injection H as -> -> ->. now repeat split.
  - destruct H as ([= ->] & [= ->] & [= ->]). reflexivity.
Qed.

(** What a count is.  When a country code goes with one country name in
    the frame, the count of a row of the figure is the number of different
    players that have a row with the years from draft and the country code
    of the count. *)
Theorem count_is_the_number_of_players
    (df_career_paths : list CareerPath) (row : CountRow) :
  (forall r r',
     r ∈ df_career_paths -> r' ∈ df_career_paths ->
     Country_Alpha3 (located (joined r)) = Country_Alpha3 (located (joined r')) ->
     Country_Name (located (joined r)) = Country_Name (located (joined r'))) ->
  row ∈ data_frame (plot_countries_per_year_away_from_draft df_career_paths) ->
  exists players : list Z,
    NoDup players
    /\ length players = Count row
    /\ forall id,
         id ∈ players
         <-> exists r,
               r ∈ df_career_paths
               /\ Proballers_ID (placement (located (joined r))) = id
               /\ Years_From_Draft r = Some (count_Years_From_Draft row)
               /\ Country_Alpha3 (located (joined r))
                  = Some (count_Country_Alpha3 row).
Proof.
  intros Hname Hrow.
  unfold plot_countries_per_year_away_from_draft in Hrow. cbn [data_frame] in Hrow.
  set (df := drop_duplicates_on player_year_country df_career_paths) in *.
  apply groupby_size_elem in Hrow as [(counted & Hcounted & Hgroup) Hcount].
  assert (Hsub : forall r, r ∈ df -> r ∈ df_career_paths)
    by (intros r; apply keep_first_on_elem).
  pose proof (drop_duplicates_on_NoDup player_year_country df_career_paths)
    as Hkeys. fold df in Hkeys.
  unfold count_group in *.
  apply group_of_some in Hgroup as (Hcy & Hca & Hcn).
  exists (map (fun r => Proballers_ID (placement (located (joined r))))
            (filter (fun r => group_of r = Some (count_Years_From_Draft row,
                                                 count_Country_Alpha3 row,
                                                 count_Country_Name row)) df)).
  split; [|split].
  - apply NoDup_fmap_2_strong.
    + intros x y Hx Hy Hid.
      apply list_elem_of_filter in Hx as [Hgx Hx].
      apply list_elem_of_filter in Hy as [Hgy Hy].
      apply group_of_some in Hgx as (Hxy & Hxa & _).
      apply group_of_some in Hgy as (Hyy & Hya & _).
      apply (NoDup_map_inj player_year_country df); try assumption.
      unfold player_year_country. now rewrite Hid, Hxy, Hyy, Hxa, Hya.
    + apply NoDup_filter. now apply (NoDup_fmap_1 player_year_country).
  - rewrite length_map, Hcount. symmetry. apply length_filter_omap.
  - intros id. rewrite list_elem_of_fmap. split.
    + intros (r & -> & Hr). apply list_elem_of_filter in Hr as [Hg Hr].
      apply group_of_some in Hg as (Hy & Ha & _).
      exists r. repeat split; auto.
    + intros (r & Hr & Hid & Hy & Ha).
      destruct (drop_duplicates_on_keys player_year_country _ _ Hr)
        as (first & Hfirst & Hkey).
      fold df in Hfirst. unfold player_year_country in Hkey.
      injection Hkey as Hkid Hky Hka.
      exists first. split; [congruence|].
      apply list_elem_of_filter. split; [|exact Hfirst].
      apply group_of_some. repeat split; [congruence|congruence|].
      rewrite <- Hcn. apply Hname; auto. congruence.
Qed.

Lemma groupby_size_count_positive df row :
  row ∈ groupby_size df -> (1 <= Count row)%nat.
Proof.
  intros Hrow.
  apply groupby_size_elem in Hrow as [(counted & Hcounted & Hg) ->].
  assert (Hin : count_group row
                ∈ filter (fun other => other = count_group row)
                    (omap group_of df)).
  { apply list_elem_of_filter. split; [reflexivity|].
    apply list_elem_of_omap. eauto. }
  destruct (filter _ (omap group_of df)); [now apply elem_of_nil in Hin|].
  simpl. lia.
Qed.

Lemma column_min_le cells x :
  Some x ∈ cells -> exists least, column_min cells = Some least /\ least <= x.
Proof.
  induction cells as [|cell cells IH]; intros Hin;
    [now apply elem_of_nil in Hin|].
  simpl. apply elem_of_cons in Hin as [<-|Hin].
  - destruct (column_min cells) as [m|]; eexists; split; try reflexivity; lia.
  - destruct (IH Hin) as (least & -> & Hle).
    destruct cell as [y|]; eexists; split; try reflexivity; lia.
Qed.

Lemma column_max_ge cells x :
  Some x ∈ cells -> exists most, column_max cells = Some most /\ x <= most.
Proof.
  induction cells as [|cell cells IH]; intros Hin;
    [now apply elem_of_nil in Hin|].
  simpl. apply elem_of_cons in Hin as [<-|Hin].
  - destruct (column_max cells) as [m|]; eexists; split; try reflexivity; lia.
  - destruct (IH Hin) as (most & -> & Hle).
    destruct cell as [y|]; eexists; split; try reflexivity; lia.
Qed.

(** The subtitle of the figure: the draft year of every row that is left
    after the removal of the duplicates lies between the two years it
    names. *)
Theorem subtitle_years_bound_the_draft_years
    (df_career_paths : list CareerPath) (row : CareerPath) (draft_year : Z) :
  row ∈ drop_duplicates_on player_year_country df_career_paths ->
  Draft_Year (joined row) = Some draft_year ->
  exists least most,
    min_draft_year (plot_countries_per_year_away_from_draft df_career_paths)
    = Some least
    /\ max_draft_year (plot_countries_per_year_away_from_draft df_career_paths)
       = Some most
    /\ least <= draft_year <= most.
Proof.
  intros Hrow Hdraft.
  assert (Hin : Some draft_year
                ∈ map (fun row => Draft_Year (joined row))
                    (drop_duplicates_on player_year_country df_career_paths)).
  { rewrite <- Hdraft. apply list_elem_of_fmap. now exists row. }
  destruct (column_min_le _ _ Hin) as (least & Hleast & Hle).
  destruct (column_max_ge _ _ Hin) as (most & Hmost & Hge).
  exists least, most. unfold plot_countries_per_year_away_from_draft.
  cbn [min_draft_year max_draft_year]. now repeat split.
Qed.

Section WithCodeList.

Variable get_alpha_2 : string -> option MappingEntry.
Variable get_alpha_3 : string -> option MappingEntry.

(** The app: every row of the figure counts at least one player, for a
    number of years from draft above -10 and at most 30, and for a country
    of a placement of a drafted player. *)
Theorem app_counts_plausible_years
    current_year (batches : list (list Placement))
    (country_mappings : gmap string MappingEntry)
    (df_draft_history : list Entrant) (figure : figure_data) (row : CountRow) :
  app get_alpha_2 get_alpha_3 current_year batches country_mappings
    df_draft_history = Returns figure ->
  row ∈ data_frame figure ->
  -10 < count_Years_From_Draft row <= 30
  /\ (1 <= Count row)%nat
  /\ exists row_placement,
       row_placement ∈ concat batches
       /\ (create_dataframe_of_career_paths get_alpha_2 get_alpha_3
             current_year batches country_mappings df_draft_history).1.2
          !! split_dash_first (League row_placement)
          = Some {| ALPHA_3 := count_Country_Alpha3 row;
                    NAME := count_Country_Name row |}.
Proof.
  unfold app.
  destruct (create_dataframe_of_career_paths _ _ _ _ _ _).1.1
    as [out|e] eqn:Hout; [|discriminate].
  intros [= <-] Hrow.
  unfold plot_countries_per_year_away_from_draft in Hrow. cbn [data_frame] in Hrow.
  pose proof (groupby_size_count_positive _ _ Hrow) as Hpositive.
  apply groupby_size_elem in Hrow as [(counted & Hcounted & Hgroup) _].
  apply keep_first_on_elem in Hcounted.
  unfold count_group in Hgroup. apply group_of_some in Hgroup as (Hy & Ha & Hn).
  destruct (create_returns_inputs _ _ _ _ _ _ _ Hout) as [Hbatches _].
  apply (create_elem _ _ _ _ _ _ _ counted Hout) in Hcounted
    as (Hjoined & _ & Hplausible).
  unfold is_plausible in Hplausible. rewrite Hy in Hplausible.
  apply andb_true_iff in Hplausible as [Hlow Hhigh].
  apply Z.ltb_lt in Hlow. apply Z.leb_le in Hhigh.
  split; [lia|]. split; [exact Hpositive|].
  apply joined_frame_elem in Hjoined as (row_placement & Hp & Hj).
  apply merge_left_elem in Hj as [Hloc _].
  exists row_placement. split; [exact Hp|].
  rewrite create_saved by assumption.
  rewrite Hloc in Ha, Hn. cbn in Ha, Hn.
  destruct (_ !! split_dash_first (League row_placement)) as [[alpha3 name]|];
    [|discriminate].
  cbn in Ha, Hn. congruence.
Qed.

End WithCodeList.

End MoreVisualisationFacts.

Section VisualisationExamples.
Import Registry Countries Aggregator Visualisations Samples.

Example figure_of_two_equal_rows :
  plot_countries_per_year_away_from_draft [career_path_20_21; career_path_20_21]
  = {| data_frame :=
         [{| count_Years_From_Draft := 0; count_Country_Alpha3 := "FRA";
             count_Country_Name := "France"; Count := 1 |}];
       min_draft_year := Some 2020;
       max_draft_year := Some 2020 |}.
Proof. reflexivity. Qed.

Lemma count_is_the_number_of_players_witness :
  exists players : list Z,
    NoDup players
    /\ length players = 1%nat
    /\ forall id,
         id ∈ players
         <-> exists r,
               r ∈ [career_path_20_21; career_path_20_21]
               /\ Proballers_ID (placement (located (joined r))) = id
               /\ Years_From_Draft r = Some 0
               /\ Country_Alpha3 (located (joined r)) = Some "FRA"%string.
Proof.
  apply (count_is_the_number_of_players
           [career_path_20_21; career_path_20_21]
           {| count_Years_From_Draft := 0; count_Country_Alpha3 := "FRA";
              count_Country_Name := "France"; Count := 1 |}).
  - intros r r' Hr Hr' _.
    apply list_elem_of_In in Hr. apply list_elem_of_In in Hr'.
    simpl in Hr, Hr'.
    destruct Hr as [<-|[<-|[]]]; destruct Hr' as [<-|[<-|[]]]; reflexivity.
  - left.
Defined.

Lemma subtitle_years_bound_the_draft_years_witness :
  exists least most,
    min_draft_year
      (plot_countries_per_year_away_from_draft [career_path_20_21])
    = Some least
    /\ max_draft_year
         (plot_countries_per_year_away_from_draft [career_path_20_21])
       = Some most
    /\ least <= 2020 <= most.
Proof.
  apply (subtitle_years_bound_the_draft_years [career_path_20_21]
           career_path_20_21 2020).
  - left.
  - reflexivity.
Defined.

Lemma app_counts_plausible_years_witness :
  -10 < 0 <= 30
  /\ (1 <= 1)%nat
  /\ exists row_placement,
       row_placement ∈ concat [[placement_20_21; placement_20_21]]
       /\ (create_dataframe_of_career_paths code_list_alpha_2 code_list_alpha_3
             2026 [[placement_20_21; placement_20_21]] ∅ registry_2020).1.2
          !! split_dash_first (League row_placement)
          = Some {| ALPHA_3 := "FRA"; NAME := "France" |}.
Proof.
  apply (app_counts_plausible_years code_list_alpha_2 code_list_alpha_3 2026
           [[placement_20_21; placement_20_21]] ∅ registry_2020
           (plot_countries_per_year_away_from_draft [career_path_20_21])
           {| count_Years_From_Draft := 0; count_Country_Alpha3 := "FRA";
              count_Country_Name := "France"; Count := 1 |}).
  - reflexivity.
  - left.
Defined.

End VisualisationExamples.
